(** * Refresh-token strategy of mercury-auth: a shallow embedding

    The development follows
    [src/domain/strategies/refresh-token.strategy.ts] (the two extractors,
    [RefreshTokenStrategy.authenticate] and [RefreshTokenStrategy.validate])
    and the [JwtModule] options factory of [AuthModule.forRootAsync].

    Calls to collaborators (request helpers, token service, user
    directory) are recorded in a trace, so that statements such as "the
    directory is not consulted" are statements about the trace. *)

From Stdlib Require Import ZArith.
From stdpp Require Import gmap strings list fin_maps.

Local Open Scope string_scope.

(** ** Values crossing the JavaScript boundary *)

(** [string | undefined | null] is an [option string]; the empty string is
    the only falsy string. *)
Definition truthy (v : option string) : bool :=
  match v with
  | Some s => negb (String.eqb s "")
  | None => false
  end.

(** [v || null] *)
Definition orNull (v : option string) : option string :=
  if truthy v then v else None.

(** ** Trace of collaborator calls *)

Inductive TokenClass := AccessClass | RefreshClass.

Inductive Event :=
| CookieRead (name : string)
| HeaderRead (name : string)
| Decode (class : TokenClass) (token : string)
| DirectoryLookup (username : string).

Definition Traced (A : Type) : Type := (A * list Event)%type.

Definition ret {A} (x : A) : Traced A := (x, []).

Definition bind {A B} (m : Traced A) (k : A -> Traced B) : Traced B :=
  let '(a, t1) := m in
  let '(b, t2) := k a in
  (b, (t1 ++ t2)%list).

(** A call to a collaborator: the event is logged, the answer returned. *)
Definition call {A} (e : Event) (answer : A) : Traced A := (answer, [e]).

Notation "'let!' x ':=' m 'in' k" := (bind m (fun x => k))
  (at level 10, x name, m at level 100, k at level 200).

(** ** The rxjs fragment used by [validate] *)

Module Rx.

Inductive Ending := Completed | Errored (err : string).

(** A finite observable: the values it emits, then how it ends. *)
Record Observable (A : Type) := mkObservable {
  emitted : list A;
  ending : Ending
}.
Arguments mkObservable {A} _ _.
Arguments emitted {A} _.
Arguments ending {A} _.

Inductive Promise (A : Type) :=
| Resolved (value : A)
| RejectedWith (err : string).
Arguments Resolved {A} _.
Arguments RejectedWith {A} _.

Definition EmptyError : string := "EmptyError".

(** [of(x)]; [of] is reserved in Rocq. *)
Definition of_ {A} (x : A) : Observable A := mkObservable [x] Completed.

Definition map {A B} (f : A -> B) (o : Observable A) : Observable B :=
  mkObservable (f <$> emitted o) (ending o).

(** [mergeMap] with a projection that may call collaborators: the inner
    observables are subscribed in the order of the outer emissions; an
    inner error ends the result. *)
Fixpoint mergeAll {A B} (f : A -> Traced (Observable B)) (xs : list A)
    (outerEnd : Ending) : Traced (Observable B) :=
  match xs with
  | [] => ret (mkObservable [] outerEnd)
  | x :: xs' =>
      let! inner := f x in
      match ending inner with
      | Errored e => ret inner
      | Completed =>
          let! rest := mergeAll f xs' outerEnd in
          ret (mkObservable (emitted inner ++ emitted rest)%list (ending rest))
      end
  end.

Definition mergeMap {A B} (f : A -> Traced (Observable B))
    (o : Observable A) : Traced (Observable B) :=
  mergeAll f (emitted o) (ending o).

(** [lastValueFrom]: the last value emitted; an error rejects, and so
    does completion without a value ([EmptyError]). *)
Definition lastValueFrom {A} (o : Observable A) : Promise A :=
  match ending o with
  | Errored e => RejectedWith e
  | Completed =>
      match last (emitted o) with
      | Some v => Resolved v
      | None => RejectedWith EmptyError
      end
  end.

End Rx.

(** ** Configuration and data *)

(** Modelled from the spec: the declaration of [AuthTransferTokenMethod]
    is not among the sources. The strategy names [COOKIE_ONLY] and
    [BEARER_ONLY]; the third member is the spec's mode [both]. *)
Inductive AuthTransferTokenMethod := COOKIE_ONLY | BEARER_ONLY | BOTH.

(** [IAuthDefinitions.jwt]; the time spans are held in seconds. *)
Record JwtDefinitions := mkJwtDefinitions {
  secret : string;
  expiresIn : Z;
  refreshTokenExpiresIn : Z
}.

Record IAuthDefinitions := mkAuthDefinitions {
  jwt : JwtDefinitions;
  transferTokenMethod : AuthTransferTokenMethod;
  redactedFields : list string
}.

(** The fields of [IJwtPayload] that the strategy and the codec use;
    [iat] and [exp] are Unix times in seconds. *)
Record IJwtPayload := mkJwtPayload {
  username : string;
  iat : Z;
  exp : Z
}.

Definition UNAUTHORIZED : Z := 401.

Definition REFRESH_TOKEN_COOKIE : string := "RefreshToken".
Definition REFRESH_TOKEN_HEADER : string := "refresh-token".

(** The channels of the access token, which the refresh strategy leaves
    alone. *)
Definition ACCESS_TOKEN_COOKIE : string := "AccessToken".
Definition AUTHORIZATION_HEADER : string := "authorization".

Section Strategy.

(** The request type and the values of a user's fields are opaque to
    the strategy. *)
Context {IHttpRequest FieldValue : Type}.

(** A user record is a JavaScript object: field names to values. *)
Abbreviation IAuthUserEntity := (gmap string FieldValue).

(** Request helpers of the package, not among the sources: the value
    of the named cookie or header, if any. *)
Variable getRequestCookie : IHttpRequest -> string -> option string.
Variable getRequestHeader : IHttpRequest -> string -> option string.

(** Injected collaborators. *)
Record TokenService := mkTokenService {
  decodeAccessToken : string -> option IJwtPayload;
  decodeRefreshToken : string -> option IJwtPayload
}.

Record AuthRepository := mkAuthRepository {
  getAuthUserByUsername : string -> Rx.Observable (option IAuthUserEntity)
}.

Variable authDefinitions : IAuthDefinitions.
Variable authRepository : AuthRepository.
Variable jwtService : TokenService.

(** Modelled from the spec: [hideRedactedFields] is not among the
    sources. "Given a user-shaped record and a set of field names,
    returns a shallow copy with those named fields omitted"; "unknown
    field names in the configured set are silently ignored". This is the
    copy of a record that is there. *)
Definition omitFields (fields : list string) (user : IAuthUserEntity)
    : IAuthUserEntity :=
  foldr delete user fields.

(** Modelled from the spec: [hideRedactedFields] as [validate] applies it
    under [map], to whatever the directory emitted. A record is copied
    without the named fields; an absent record stays absent (the
    directory's "absence outcomes" are propagated "without masking
    them"). *)
Definition hideRedactedFields (fields : list string)
    (user : option IAuthUserEntity) : option IAuthUserEntity :=
  omitFields fields <$> user.

(** *** Extractors *)

Definition cookieExtractor (transferTokenMethod : AuthTransferTokenMethod)
    (request : IHttpRequest) : Traced (option string) :=
  match transferTokenMethod with
  | BEARER_ONLY => ret None
  | _ =>
      let! v := call (CookieRead REFRESH_TOKEN_COOKIE)
                     (getRequestCookie request REFRESH_TOKEN_COOKIE) in
      ret (orNull v)
  end.

Definition refreshTokenHeaderExtractor
    (transferTokenMethod : AuthTransferTokenMethod)
    (request : IHttpRequest) : Traced (option string) :=
  match transferTokenMethod with
  | COOKIE_ONLY => ret None
  | _ =>
      let! v := call (HeaderRead REFRESH_TOKEN_HEADER)
                     (getRequestHeader request REFRESH_TOKEN_HEADER) in
      ret (orNull v)
  end.

(** [ExtractJwt.fromExtractors] of passport-jwt:
    [while (!token && index < extractors.length)
       token = extractors[index++](request);  return token]. *)
Fixpoint tryExtractors (token : option string)
    (extractors : list (IHttpRequest -> Traced (option string)))
    (request : IHttpRequest) : Traced (option string) :=
  if truthy token then ret token
  else match extractors with
       | [] => ret token
       | extractor :: rest =>
           let! t := extractor request in
           tryExtractors t rest request
       end.

Definition fromExtractors
    (extractors : list (IHttpRequest -> Traced (option string)))
    (request : IHttpRequest) : Traced (option string) :=
  tryExtractors None extractors request.

(** The constructor's [this.jwtFromRequest]. *)
Definition jwtFromRequest : IHttpRequest -> Traced (option string) :=
  fromExtractors
    [ cookieExtractor (transferTokenMethod authDefinitions);
      refreshTokenHeaderExtractor (transferTokenMethod authDefinitions) ].

(** *** validate *)

(** A JavaScript [Date] holds at most this many milliseconds either
    side of the epoch; [new Date(ms)] beyond it is an invalid date. *)
Definition MAX_TIME_VALUE : Z := 8640000000000000.

Definition validDate (ms : Z) : bool :=
  (- MAX_TIME_VALUE <=? ms)%Z && (ms <=? MAX_TIME_VALUE)%Z.

(** [moment().isAfter(moment(exp * 1000).toDate())]. [now] is the clock
    reading of [moment()] in milliseconds, which is a valid date;
    [instant] is the number handed to [moment(..)]. moment's [isAfter]
    is false when the date compared with is invalid, and otherwise
    compares the two in milliseconds, strictly. ([IJwtPayload] here
    always carries a number for [exp].) *)
Definition isAfter (now instant : Z) : bool :=
  validDate instant && (instant <? now)%Z.

Definition validate (now : Z) (payload : IJwtPayload)
    : Traced (Rx.Promise (option IAuthUserEntity)) :=
  let! o :=
    Rx.mergeMap
      (fun res : IJwtPayload =>
         if isAfter now (exp payload * 1000)%Z then ret (Rx.of_ None)
         else
           let! found :=
             call (DirectoryLookup (username res))
                  (getAuthUserByUsername authRepository (username res)) in
           ret (Rx.map (hideRedactedFields (redactedFields authDefinitions))
                       found))
      (Rx.of_ payload) in
  ret (Rx.lastValueFrom o).

(** What the pipeline [getAuthUserByUsername(..).pipe(map(hide..))]
    leaves for [lastValueFrom]: the directory's answer for the payload's
    username, redacted. *)
Definition resolved (payload : IJwtPayload)
    : Rx.Promise (option IAuthUserEntity) :=
  Rx.lastValueFrom
    (Rx.map (hideRedactedFields (redactedFields authDefinitions))
            (getAuthUserByUsername authRepository (username payload))).

(** *** authenticate *)

(** What a call of [authenticate] ends in: [this.fail(status)],
    [this.success(user)], or a rejected promise. *)
Inductive Outcome :=
| Fail (status : Z)
| Success (user : IAuthUserEntity)
| Rejected (err : string).

Definition authenticate (now : Z) (req : IHttpRequest) : Traced Outcome :=
  let! token := jwtFromRequest req in
  let! jwtPayload :=
    if truthy token then
      match token with
      | Some t => call (Decode RefreshClass t) (decodeRefreshToken jwtService t)
      | None => ret None
      end
    else ret None in
  let! user :=
    match jwtPayload with
    | Some p => validate now p
    | None => ret (Rx.Resolved None)
    end in
  match user with
  | Rx.RejectedWith err => ret (Rejected err)
  | Rx.Resolved user =>
      match jwtPayload, user with
      | Some _, Some u => ret (Success u)
      | _, _ => ret (Fail UNAUTHORIZED)
      end
  end.

End Strategy.

Arguments Outcome : clear implicits.
Arguments AuthRepository : clear implicits.
Arguments Fail {FieldValue} _.
Arguments Success {FieldValue} _.
Arguments Rejected {FieldValue} _.

(** ** A concrete deployment, used to run the model *)

Module Demo.

Record Request := mkRequest {
  cookies : gmap string string;
  headers : gmap string string
}.

Definition cookieOf (r : Request) (name : string) : option string :=
  cookies r !! name.
Definition headerOf (r : Request) (name : string) : option string :=
  headers r !! name.

Definition definitions (mode : AuthTransferTokenMethod) : IAuthDefinitions :=
  {| jwt := {| secret := "s3cret"; expiresIn := 900;
               refreshTokenExpiresIn := 86400 |};
     transferTokenMethod := mode;
     redactedFields := ["password"] |}.

Definition alice : gmap string string :=
  {[ "id" := "123456"; "username" := "alice"; "password" := "$2b$hash" ]}.

(** One user; the lookup emits the record or [undefined]. *)
Definition directory : AuthRepository string :=
  {| getAuthUserByUsername u :=
       Rx.of_ (if String.eqb u "alice" then Some alice else None) |}.

(** A directory whose lookup completes without emitting. *)
Definition silentDirectory : AuthRepository string :=
  {| getAuthUserByUsername _ := Rx.mkObservable [] Rx.Completed |}.

(** A token service that reads ["<username>"] tokens expiring at
    1700000000. *)
Definition tokens : TokenService :=
  {| decodeAccessToken _ := None;
     decodeRefreshToken t :=
       if String.eqb t "" then None
       else Some {| username := t; iat := 1699913600; exp := 1700000000 |} |}.

Definition alicePayload : IJwtPayload :=
  {| username := "alice"; iat := 1699913600; exp := 1700000000 |}.

Definition bobPayload : IJwtPayload :=
  {| username := "bob"; iat := 1699913600; exp := 1700000000 |}.

Definition withHeader (t : string) : Request :=
  {| cookies := ∅; headers := {[ "refresh-token" := t ]} |}.
Definition withCookie (t : string) : Request :=
  {| cookies := {[ "RefreshToken" := t ]}; headers := ∅ |}.

Definition run (mode : AuthTransferTokenMethod)
    (repo : AuthRepository string) (now : Z) (req : Request)
    : Traced (Outcome string) :=
  authenticate cookieOf headerOf (definitions mode) repo tokens now req.

End Demo.

(** ** Token issuance *)

Module TokenCodec.

(** What [JwtModule.registerAsync] receives from the factory. *)
Record SignOptions := mkSignOptions { signExpiresIn : Z }.

Record JwtModuleOptions := mkJwtModuleOptions {
  jwtSecret : string;
  signOptions : SignOptions
}.

(** The [useFactory] of [JwtModule.registerAsync] in
    [AuthModule.forRootAsync]. *)
Definition useFactory (definitions : IAuthDefinitions) : JwtModuleOptions :=
  {| jwtSecret := secret (jwt definitions);
     signOptions := {| signExpiresIn := expiresIn (jwt definitions) |} |}.

(** A signed token: the payload and the signature over it. *)
Record Token := mkToken {
  payload : IJwtPayload;
  signature : string
}.

Section Codec.

(** The symmetric signature scheme: secret and payload to signature. *)
Variable sign : string -> IJwtPayload -> string.

Variable options : JwtModuleOptions.

(** Modelled from the spec: the token service is not among the
    sources. "[issueAccessToken(username) -> TokenString]: encode a
    JwtPayload with [exp = now + configured_ttl], signed with the
    configured secret using a symmetric signature scheme." *)
Definition issueAccessToken (issueTime : Z) (user : string) : Token :=
  let p := {| username := user;
              iat := issueTime;
              exp := issueTime + signExpiresIn (signOptions options) |} in
  {| payload := p; signature := sign (jwtSecret options) p |}.

(** Modelled from the spec: the token service is not among the
    sources. "[decodeAccessToken(token) -> JwtPayload | invalid]:
    verify signature; on signature failure or malformed structure,
    returns invalid." *)
Definition decodeAccessToken (token : Token) : option IJwtPayload :=
  if String.eqb (signature token) (sign (jwtSecret options) (payload token))
  then Some (payload token)
  else None.

End Codec.

End TokenCodec.

(** ** The module definition *)

Module AuthModule.

(** The injection tokens and classes that [forRootAsync] names. *)
Inductive Name :=
| AUTH_PASSWORD_HASHER
| AuthRepository
| APP_GUARD
| AuthGlobalGuard
| AuthenticationService
| LocalStrategy
| JwtStrategy
| RefreshTokenStrategy
| LoginAction
| AuthBasicGuard
| AuthRefreshTokenGuard
| ClearAuthCookieInterceptor
| CookieAuthInterceptor
| LoginController
| RefreshTokenController
| LogoutController
| ProfileController
| AUTH_DEFINITIONS_MODULE_OPTIONS
| AuthDefinitionsModule.

Global Instance Name_eq_dec : EqDecision Name.
Proof. solve_decision. Defined.

Section ForRootAsync.

(** What the caller brings: factory functions, the types it asks to be
    injected, the modules it imports, the options of the definitions
    module. *)
Context {Factory UserType UserImport DefinitionsOptions : Type}.

(** What an [inject] array may hold: a token the module names, such as
    [AUTH_PASSWORD_HASHER], or a class of the caller. *)
Inductive InjectToken :=
| ByName (name : Name)
| ByType (type : UserType).

(** [{ useFactory, inject? }]; a falsy [useFactory] is [None]. *)
Record FactoryOptions := mkFactoryOptions {
  useFactory : option Factory;
  inject : option (list InjectToken)
}.

Record IAuthModuleOptions := mkAuthModuleOptions {
  imports : option (list UserImport);
  definitions : DefinitionsOptions;
  authRepository : FactoryOptions;
  passwordHasher : option FactoryOptions
}.

Inductive FactoryFn :=
| Given (f : Factory)
| NewBcryptPasswordHasherService
| NewLocalAuthRepository.

Inductive Provider :=
| FactoryProvider (provide : Name) (factory : FactoryFn)
    (injected : option (list InjectToken))
| ClassProvider (provide : Name) (useClass : Name)
| Class (class : Name).

Inductive Import :=
| UserModule (m : UserImport)
| HashingModule
| AuthDefinitionsModule_forRootAsync (d : DefinitionsOptions)
| JwtModule_registerAsync
    (factory : IAuthDefinitions -> TokenCodec.JwtModuleOptions)
    (injected : list Name) (imported : list Name).

Record DynamicModule := mkDynamicModule {
  providers : list Provider;
  moduleImports : list Import;
  controllers : list Name;
  exports : list Name
}.

(** The token under which a provider is registered. *)
Definition provide (p : Provider) : Name :=
  match p with
  | FactoryProvider name _ _ => name
  | ClassProvider name _ => name
  | Class name => name
  end.

Definition forRootAsync (options : IAuthModuleOptions) : DynamicModule :=
  {| providers :=
       [ FactoryProvider AUTH_PASSWORD_HASHER
           (match passwordHasher options with
            | Some given =>
                match useFactory given with
                | Some f => Given f
                | None => NewBcryptPasswordHasherService
                end
            | None => NewBcryptPasswordHasherService
            end)
           (match passwordHasher options with
            | Some given => inject given
            | None => None
            end);
         FactoryProvider AuthRepository
           (match useFactory (authRepository options) with
            | Some f => Given f
            | None => NewLocalAuthRepository
            end)
           (Some (match inject (authRepository options) with
                  | Some tokens => tokens
                  | None => [ByName AUTH_PASSWORD_HASHER]
                  end));
         ClassProvider APP_GUARD AuthGlobalGuard;
         Class AuthenticationService;
         Class LocalStrategy;
         Class JwtStrategy;
         Class RefreshTokenStrategy;
         Class LoginAction;
         Class AuthBasicGuard;
         Class AuthRefreshTokenGuard;
         Class ClearAuthCookieInterceptor;
         Class CookieAuthInterceptor ];
     moduleImports :=
       List.map UserModule
         (match imports options with Some ms => ms | None => [] end)
       ++ [ HashingModule;
            AuthDefinitionsModule_forRootAsync (definitions options);
            JwtModule_registerAsync TokenCodec.useFactory
              [AUTH_DEFINITIONS_MODULE_OPTIONS] [AuthDefinitionsModule] ];
     controllers :=
       [ LoginController; RefreshTokenController; LogoutController;
         ProfileController ];
     exports :=
       [ AuthRepository; AUTH_PASSWORD_HASHER;
         ClearAuthCookieInterceptor; CookieAuthInterceptor;
         LocalStrategy; JwtStrategy; RefreshTokenStrategy ] |}%list.

End ForRootAsync.

End AuthModule.

(** ** The PBKDF2 hasher of the README *)

Module Pbkdf2.

Record IPbkdf2Hash := mkPbkdf2Hash {
  hash : string;
  salt : string
}.

Section Service.

(** [crypto.pbkdf2Sync(password, salt, iterations, keylen, digest)
    .toString('hex')]. *)
Variable pbkdf2Sync : string -> string -> Z -> Z -> string -> string.

(** [Pbkdf2PasswordHasherService.hash], given the salt that
    [crypto.randomBytes(16).toString('hex')] drew. *)
Definition hashWith (drawnSalt : string) (password : string) : IPbkdf2Hash :=
  {| salt := drawnSalt;
     hash := pbkdf2Sync password drawnSalt 10000 512 "sha512" |}.

(** [Pbkdf2PasswordHasherService.compare]. *)
Definition compare (password : string) (hashedPassword : IPbkdf2Hash) : bool :=
  String.eqb (hash hashedPassword)
    (pbkdf2Sync password (salt hashedPassword) 10000 512 "sha512").

End Service.

End Pbkdf2.

(** ** Further deployments *)

Module Scenarios.

Definition staleAlice : gmap string string :=
  {[ "id" := "123456"; "username" := "alice"; "email" := "old@example.org" ]}.

(** A directory whose lookup emits an older record before the current
    one. *)
Definition changingDirectory : AuthRepository string :=
  {| getAuthUserByUsername _ :=
       Rx.mkObservable [Some staleAlice; Some Demo.alice] Rx.Completed |}.

(** A directory whose lookup emits a record and then fails. *)
Definition failingDirectory : AuthRepository string :=
  {| getAuthUserByUsername _ :=
       Rx.mkObservable [Some Demo.alice] (Rx.Errored "ECONNRESET") |}.

(** A token service that knows only the token ["alice"]. *)
Definition strictTokens : TokenService :=
  {| decodeAccessToken _ := None;
     decodeRefreshToken t :=
       if String.eqb t "alice" then Some Demo.alicePayload else None |}.

Definition cookieAndHeader (c h : string) : Demo.Request :=
  {| Demo.cookies := {[ "RefreshToken" := c ]};
     Demo.headers := {[ "refresh-token" := h ]} |}.

(** A payload whose [exp] lies before the first JavaScript date, and a
    token service that decodes every token to it. *)
Definition ancientPayload : IJwtPayload :=
  {| username := "alice"; iat := 0; exp := -8640000000001 |}.

Definition ancientTokens : TokenService :=
  {| decodeAccessToken _ := None;
     decodeRefreshToken _ := Some ancientPayload |}.

(** A toy key derivation, to run the hasher. *)
Definition toyPbkdf2 (password saltHex : string) (iterations keylen : Z)
    (digest : string) : string :=
  digest +:+ ":" +:+ saltHex +:+ ":" +:+ password.

End Scenarios.

(** * Properties *)

Lemma truthy_orNull (v : option string) : truthy (orNull v) = truthy v.
Proof. unfold orNull. destruct (truthy v) eqn:E; [exact E | reflexivity]. Qed.

Lemma orNull_truthy (v : option string) : truthy v = true -> orNull v = v.
Proof. unfold orNull. intros ->. reflexivity. Qed.

Lemma orNull_falsy (v : option string) : truthy v = false -> orNull v = None.
Proof. unfold orNull. intros ->. reflexivity. Qed.

Lemma truthy_Some (v : option string) :
  truthy v = true -> exists t, v = Some t /\ t <> "".
Proof.
  destruct v as [t|]; simpl; [|discriminate].
  intros H. exists t. split; [reflexivity|].
  intros ->. discriminate.
Qed.

Lemma lastValueFrom_map {A B} (f : A -> B) (o : Rx.Observable A) :
  Rx.lastValueFrom (Rx.map f o)
  = match Rx.lastValueFrom o with
    | Rx.Resolved v => Rx.Resolved (f v)
    | Rx.RejectedWith e => Rx.RejectedWith e
    end.
Proof.
  unfold Rx.lastValueFrom, Rx.map. simpl.
  destruct (Rx.ending o); [|reflexivity].
  rewrite fmap_last. destruct (last (Rx.emitted o)); reflexivity.
Qed.

(** [mergeMap] over [of(x)] is the inner observable, as far as
    [lastValueFrom] can tell. *)
Lemma lastValueFrom_mergeMap_of {A B} (f : A -> Traced (Rx.Observable B)) (x : A) :
  (let! o := Rx.mergeMap f (Rx.of_ x) in ret (Rx.lastValueFrom o))
  = (Rx.lastValueFrom (fst (f x)), snd (f x)).
Proof.
  unfold Rx.mergeMap, Rx.of_. simpl.
  destruct (f x) as [inner tr]. simpl.
  destruct inner as [vs e]. destruct e; simpl.
  - rewrite !app_nil_r. reflexivity.
  - rewrite !app_nil_r. reflexivity.
Qed.

(** Take hypotheses apart and use the equations among them. *)
Ltac break_hyps :=
  repeat match goal with
         | H : _ /\ _ |- _ => destruct H
         | H : exists _, _ |- _ => destruct H
         | H : _ \/ _ |- _ => destruct H
         end;
  simplify_eq; try discriminate.

Section StrategyFacts.

Context {IHttpRequest FieldValue : Type}.
Variable getRequestCookie : IHttpRequest -> string -> option string.
Variable getRequestHeader : IHttpRequest -> string -> option string.
Variable authDefinitions : IAuthDefinitions.
Variable authRepository : AuthRepository FieldValue.
Variable jwtService : TokenService.

Local Abbreviation cookieOf req := (getRequestCookie req REFRESH_TOKEN_COOKIE).
Local Abbreviation headerOf req := (getRequestHeader req REFRESH_TOKEN_HEADER).
Local Abbreviation extract :=
  (jwtFromRequest getRequestCookie getRequestHeader authDefinitions).
Local Abbreviation check :=
  (validate (FieldValue := FieldValue) authDefinitions authRepository).
Local Abbreviation resolved :=
  (resolved (FieldValue := FieldValue) authDefinitions authRepository).
Local Abbreviation auth :=
  (authenticate getRequestCookie getRequestHeader authDefinitions
     authRepository jwtService).

(** What [jwtFromRequest] returns and which channels it reads. *)
Lemma jwtFromRequest_eq (req : IHttpRequest) :
  extract req =
  match transferTokenMethod authDefinitions with
  | COOKIE_ONLY => (orNull (cookieOf req), [CookieRead REFRESH_TOKEN_COOKIE])
  | BEARER_ONLY => (orNull (headerOf req), [HeaderRead REFRESH_TOKEN_HEADER])
  | BOTH =>
      if truthy (cookieOf req)
      then (cookieOf req, [CookieRead REFRESH_TOKEN_COOKIE])
      else (orNull (headerOf req),
            [CookieRead REFRESH_TOKEN_COOKIE; HeaderRead REFRESH_TOKEN_HEADER])
  end.
Proof.
  unfold jwtFromRequest, fromExtractors.
  destruct (transferTokenMethod authDefinitions); simpl.
  - rewrite truthy_orNull.
    destruct (truthy (cookieOf req)) eqn:E; simpl; [reflexivity|].
    rewrite (orNull_falsy _ E). reflexivity.
  - destruct (truthy (orNull (headerOf req))); reflexivity.
  - rewrite truthy_orNull.
    destruct (truthy (cookieOf req)) eqn:E; simpl.
    + rewrite (orNull_truthy _ E). reflexivity.
    + destruct (truthy (orNull (headerOf req))); reflexivity.
Qed.

(** The extracted token is [null] or a non-empty string. *)
Lemma jwtFromRequest_falsy_None (req : IHttpRequest) :
  truthy (fst (extract req)) = false -> fst (extract req) = None.
Proof.
  rewrite jwtFromRequest_eq.
  destruct (transferTokenMethod authDefinitions); simpl.
  - rewrite truthy_orNull. apply orNull_falsy.
  - rewrite truthy_orNull. apply orNull_falsy.
  - destruct (truthy (cookieOf req)) eqn:E; simpl.
    + congruence.
    + rewrite truthy_orNull. apply orNull_falsy.
Qed.

Lemma validate_eq (now : Z) (p : IJwtPayload) :
  check now p =
  if isAfter now (exp p * 1000)%Z then (Rx.Resolved None, [])
  else (match Rx.lastValueFrom
                (getAuthUserByUsername authRepository (username p)) with
        | Rx.Resolved found =>
            Rx.Resolved (hideRedactedFields (redactedFields authDefinitions) found)
        | Rx.RejectedWith e => Rx.RejectedWith e
        end,
        [DirectoryLookup (username p)]).
Proof.
  unfold validate. rewrite lastValueFrom_mergeMap_of.
  destruct (isAfter now (exp p * 1000)); simpl; [reflexivity|].
  rewrite lastValueFrom_map. reflexivity.
Qed.

(** [authenticate], one case per way through it. *)
Lemma authenticate_eq (now : Z) (req : IHttpRequest) :
  auth now req =
  match fst (extract req) with
  | None => (Fail UNAUTHORIZED, snd (extract req))
  | Some t =>
      match decodeRefreshToken jwtService t with
      | None => (Fail UNAUTHORIZED,
                 snd (extract req) ++ [Decode RefreshClass t])
      | Some p =>
          (match fst (check now p) with
           | Rx.Resolved (Some u) => Success u
           | Rx.Resolved None => Fail UNAUTHORIZED
           | Rx.RejectedWith e => Rejected e
           end,
           snd (extract req) ++ Decode RefreshClass t :: snd (check now p))
      end
  end%list.
Proof.
  pose proof (jwtFromRequest_falsy_None req) as Hnull.
  unfold authenticate.
  destruct (extract req) as [token tr]. simpl in *.
  destruct (truthy token) eqn:Etok.
  - destruct (truthy_Some _ Etok) as (t & -> & _). simpl.
    destruct (decodeRefreshToken jwtService t) as [p|]; simpl.
    + destruct (check now p) as [r tr']. simpl.
      destruct r as [[u|]|e]; simpl; rewrite ?app_nil_r; reflexivity.
    + rewrite ?app_nil_r. reflexivity.
  - rewrite (Hnull eq_refl). simpl. rewrite ?app_nil_r. reflexivity.
Qed.

(** The events of one call: the refresh-token channels, the refresh
    decoder on the extracted token, the directory. *)
Lemma jwtFromRequest_trace (req : IHttpRequest) (e : Event) :
  e ∈ snd (extract req) ->
  e = CookieRead REFRESH_TOKEN_COOKIE \/ e = HeaderRead REFRESH_TOKEN_HEADER.
Proof.
  rewrite jwtFromRequest_eq.
  destruct (transferTokenMethod authDefinitions); simpl;
    [| | destruct (truthy (cookieOf req)); simpl];
    rewrite ?elem_of_cons, elem_of_nil; tauto.
Qed.

Lemma validate_trace (now : Z) (p : IJwtPayload) (e : Event) :
  e ∈ snd (check now p) -> e = DirectoryLookup (username p).
Proof.
  rewrite validate_eq.
  destruct (isAfter now (exp p * 1000)); simpl;
    rewrite ?elem_of_cons, elem_of_nil; tauto.
Qed.

(** ** Extraction *)

(** C3. Extraction obeys the transfer mode. In mode [cookie] the header
    extractor returns null without reading and only the cookie is read;
    in mode [bearer] the cookie extractor returns null without reading
    and only the header is read; in mode [both] the cookie is read first
    and wins when non-empty, otherwise the header is read. *)
Theorem C3_extraction_obeys_transfer_mode (req : IHttpRequest) :
  match transferTokenMethod authDefinitions with
  | COOKIE_ONLY =>
      refreshTokenHeaderExtractor getRequestHeader COOKIE_ONLY req = (None, [])
      /\ extract req
         = (orNull (cookieOf req), [CookieRead REFRESH_TOKEN_COOKIE])
  | BEARER_ONLY =>
      cookieExtractor getRequestCookie BEARER_ONLY req = (None, [])
      /\ extract req
         = (orNull (headerOf req), [HeaderRead REFRESH_TOKEN_HEADER])
  | BOTH =>
      extract req
      = if truthy (cookieOf req)
        then (cookieOf req, [CookieRead REFRESH_TOKEN_COOKIE])
        else (orNull (headerOf req),
              [CookieRead REFRESH_TOKEN_COOKIE;
               HeaderRead REFRESH_TOKEN_HEADER])
  end.
Proof.
  pose proof (jwtFromRequest_eq req) as H.
  destruct (transferTokenMethod authDefinitions); auto.
Qed.

(** C4. A call of [authenticate] reads no cookie but [RefreshToken] and
    no header but [refresh-token], and the only decoder it calls is
    [decodeRefreshToken], on the extracted string; so the [AccessToken]
    cookie, the [Authorization] header and the access-token decoder are
    never touched. *)
Theorem C4_only_refresh_channels (now : Z) (req : IHttpRequest) :
  let trace := snd (auth now req) in
  (forall name, (CookieRead name ∈ trace) -> name = REFRESH_TOKEN_COOKIE)
  /\ (forall name, (HeaderRead name ∈ trace) -> name = REFRESH_TOKEN_HEADER)
  /\ (forall class t, (Decode class t ∈ trace) ->
        class = RefreshClass /\ fst (extract req) = Some t)
  /\ (forall t, fst (extract req) = Some t -> Decode RefreshClass t ∈ trace)
  /\ (CookieRead ACCESS_TOKEN_COOKIE ∉ trace)
  /\ (HeaderRead AUTHORIZATION_HEADER ∉ trace)
  /\ (forall t, Decode AccessClass t ∉ trace).
Proof.
  intros trace.
  assert (Hall : forall e, e ∈ trace ->
            e = CookieRead REFRESH_TOKEN_COOKIE
            \/ e = HeaderRead REFRESH_TOKEN_HEADER
            \/ (exists t, e = Decode RefreshClass t /\ fst (extract req) = Some t)
            \/ (exists u, e = DirectoryLookup u)).
  { subst trace. rewrite authenticate_eq. intros e.
    destruct (fst (extract req)) as [t|] eqn:Etok.
    - destruct (decodeRefreshToken jwtService t) as [p|]; simpl.
      + rewrite elem_of_app, elem_of_cons.
        intros [H | [-> | H]].
        * apply jwtFromRequest_trace in H. tauto.
        * right. right. left. eauto.
        * apply validate_trace in H. right. right. right. eauto.
      + rewrite elem_of_app, elem_of_cons, elem_of_nil.
        intros [H | [-> | []]].
        * apply jwtFromRequest_trace in H. tauto.
        * right. right. left. eauto.
    - simpl. intros H. apply jwtFromRequest_trace in H. tauto. }
  assert (Hdec : forall t, fst (extract req) = Some t ->
            Decode RefreshClass t ∈ trace).
  { subst trace. rewrite authenticate_eq. intros t ->.
    destruct (decodeRefreshToken jwtService t); simpl;
      rewrite elem_of_app, elem_of_cons; auto. }
  repeat split.
  - intros name H. destruct (Hall _ H) as [E | [E | [(t & E & _) | (u & E)]]];
      congruence.
  - intros name H. destruct (Hall _ H) as [E | [E | [(t & E & _) | (u & E)]]];
      congruence.
  - destruct (Hall _ H) as [E | [E | [(t' & E & _) | (u & E)]]]; congruence.
  - destruct (Hall _ H) as [E | [E | [(t' & E & Ht) | (u & E)]]];
      try discriminate.
    congruence.
  - exact Hdec.
  - intros H. destruct (Hall _ H) as [E | [E | [(t & E & _) | (u & E)]]];
      discriminate.
  - intros H. destruct (Hall _ H) as [E | [E | [(t & E & _) | (u & E)]]];
      discriminate.
  - intros t H. destruct (Hall _ H) as [E | [E | [(t' & E & _) | (u & E)]]];
      discriminate.
Qed.

(** C9. An empty string counts as no token. When the [RefreshToken]
    cookie is empty or missing, the cookie extractor returns null in
    every mode and, in mode [both], extraction falls through to the
    [refresh-token] header; when the header is empty or missing as
    well, [authenticate] fails with 401 and calls no decoder, exactly as
    it does for a request that carries neither cookie nor header. *)
Theorem C9_empty_token_is_absent (now : Z) (req : IHttpRequest)
    (Hcookie : cookieOf req = Some "" \/ cookieOf req = None) :
  (forall mode, fst (cookieExtractor getRequestCookie mode req) = None)
  /\ (transferTokenMethod authDefinitions = BOTH ->
       extract req
       = (orNull (headerOf req),
          [CookieRead REFRESH_TOKEN_COOKIE; HeaderRead REFRESH_TOKEN_HEADER]))
  /\ (headerOf req = Some "" \/ headerOf req = None ->
       fst (refreshTokenHeaderExtractor getRequestHeader
              (transferTokenMethod authDefinitions) req) = None
       /\ fst (auth now req) = Fail UNAUTHORIZED
       /\ (forall class t, Decode class t ∉ snd (auth now req))
       /\ auth now req
          = authenticate (fun _ _ => None) (fun _ _ => None) authDefinitions
              authRepository jwtService now req).
Proof.
  assert (Hc : truthy (cookieOf req) = false)
    by (destruct Hcookie as [-> | ->]; reflexivity).
  split; [|split].
  - intros mode. destruct mode; simpl; rewrite ?(orNull_falsy _ Hc); reflexivity.
  - intros Hmode. rewrite jwtFromRequest_eq, Hmode, Hc. reflexivity.
  - intros Hheader.
    assert (Hh : truthy (headerOf req) = false)
      by (destruct Hheader as [-> | ->]; reflexivity).
    assert (Hx : extract req
                 = jwtFromRequest (fun _ _ => None) (fun _ _ => None)
                     authDefinitions req).
    { rewrite jwtFromRequest_eq, Hc, (orNull_falsy _ Hc), (orNull_falsy _ Hh).
      unfold jwtFromRequest, fromExtractors.
      destruct (transferTokenMethod authDefinitions); reflexivity. }
    assert (Hnone : fst (extract req) = None).
    { rewrite jwtFromRequest_eq, Hc, (orNull_falsy _ Hc), (orNull_falsy _ Hh).
      destruct (transferTokenMethod authDefinitions); reflexivity. }
    split; [|split; [|split]].
    + destruct (transferTokenMethod authDefinitions); simpl;
        rewrite ?(orNull_falsy _ Hh); reflexivity.
    + rewrite authenticate_eq, Hnone. reflexivity.
    + intros class t H. rewrite authenticate_eq, Hnone in H. simpl in H.
      apply jwtFromRequest_trace in H. destruct H; discriminate.
    + unfold authenticate. rewrite <- Hx. reflexivity.
Qed.

(** ** Expiry *)

Lemma isAfter_true (now instant : Z) :
  isAfter now instant = true <->
  validDate instant = true /\ (instant < now)%Z.
Proof.
  unfold isAfter. rewrite andb_true_iff, Z.ltb_lt. reflexivity.
Qed.

Lemma isAfter_false_iff (now instant : Z) :
  isAfter now instant = false <->
  (now <= instant)%Z \/ validDate instant = false.
Proof.
  unfold isAfter. rewrite andb_false_iff, Z.ltb_ge. tauto.
Qed.

Lemma isAfter_false (now instant : Z) :
  (now <= instant)%Z -> isAfter now instant = false.
Proof. intros H. apply isAfter_false_iff. auto. Qed.

(** What is not after a clock reading is not after an earlier one. *)
Lemma isAfter_earlier (now earlier instant : Z) :
  isAfter now instant = false -> (earlier <= now)%Z ->
  isAfter earlier instant = false.
Proof.
  rewrite !isAfter_false_iff. intros [H | H] Hle; [left; lia | auto].
Qed.

(** C1, amended. For a payload whose [exp * 1000] is a date, [validate]
    returns undefined without a lookup when the clock (milliseconds) is
    strictly after [exp * 1000]; and it goes on to resolve the user when
    the clock is at or before [exp * 1000]. So a token whose [exp] is one
    second ahead of the current second is accepted, and a token whose
    [exp] is the current second is rejected once the clock has passed the
    first millisecond of that second. *)
Theorem C1_expiry_is_strictly_after (now : Z) (p : IJwtPayload) :
  (validDate (exp p * 1000) = true -> (exp p * 1000 < now)%Z ->
   check now p = (Rx.Resolved None, []))
  /\ ((now <= exp p * 1000)%Z ->
       check now p = (resolved p, [DirectoryLookup (username p)]))
  /\ (exp p = (now / 1000 + 1)%Z ->
       check now p = (resolved p, [DirectoryLookup (username p)]))
  /\ (validDate (exp p * 1000) = true ->
       exp p = (now / 1000)%Z -> (now mod 1000 <> 0)%Z ->
       check now p = (Rx.Resolved None, [])).
Proof.
  rewrite validate_eq. unfold resolved. rewrite lastValueFrom_map.
  pose proof (Z.div_mod now 1000 ltac:(lia)) as Hdm.
  pose proof (Z.mod_pos_bound now 1000 ltac:(lia)) as Hb.
  repeat split.
  - intros Hv H. assert (E : isAfter now (exp p * 1000) = true)
      by (apply isAfter_true; auto).
    rewrite E. reflexivity.
  - intros H. apply isAfter_false in H. rewrite H. reflexivity.
  - intros H. assert (E : isAfter now (exp p * 1000) = false)
      by (apply isAfter_false; lia).
    rewrite E. reflexivity.
  - intros Hv H Hm. assert (E : isAfter now (exp p * 1000) = true)
      by (apply isAfter_true; split; [exact Hv | lia]).
    rewrite E. reflexivity.
Qed.

(** X14. A decoded refresh-token payload whose [exp * 1000] is a date
    in the past is rejected with 401 whatever the decoder thought of it:
    [validate] returns undefined, [authenticate] calls [fail(401)], and
    the directory is never consulted. *)
Theorem expired_payload_rejected_before_lookup
    (now : Z) (req : IHttpRequest) (t : string) (p : IJwtPayload)
    (Htoken : fst (extract req) = Some t)
    (Hdecode : decodeRefreshToken jwtService t = Some p)
    (Hdate : validDate (exp p * 1000) = true)
    (Hpast : (exp p * 1000 < now)%Z) :
  validate authDefinitions authRepository now p = (Rx.Resolved None, [])
  /\ fst (auth now req) = Fail UNAUTHORIZED
  /\ (forall u, DirectoryLookup u ∉ snd (auth now req))
  /\ (forall user, fst (auth now req) <> Success user).
Proof.
  assert (Hv : check now p = (Rx.Resolved None, [])).
  { rewrite validate_eq.
    assert (E : isAfter now (exp p * 1000) = true)
      by (apply isAfter_true; auto).
    rewrite E. reflexivity. }
  rewrite authenticate_eq, Htoken, Hdecode, Hv. simpl.
  repeat split; try discriminate.
  intros u H. rewrite elem_of_app, elem_of_cons, elem_of_nil in H.
  destruct H as [H | [H | []]]; [|discriminate].
  apply jwtFromRequest_trace in H. destruct H; discriminate.
Qed.

(** ** Resolution of the user *)

Lemma omitFields_lookup_omitted (fields : list string)
    (user : gmap string FieldValue) (f : string) :
  f ∈ fields -> omitFields fields user !! f = None.
Proof.
  unfold omitFields. induction fields as [|g fields IH]; simpl.
  - intros H. apply elem_of_nil in H. destruct H.
  - intros H. apply elem_of_cons in H.
    rewrite lookup_delete. case_decide as E; [reflexivity|].
    destruct H as [-> | H]; [congruence | auto].
Qed.

Lemma omitFields_lookup_kept (fields : list string)
    (user : gmap string FieldValue) (f : string) :
  f ∉ fields -> omitFields fields user !! f = user !! f.
Proof.
  unfold omitFields. induction fields as [|g fields IH]; simpl; [reflexivity|].
  intros H. apply not_elem_of_cons in H as [Hne Hnin].
  rewrite lookup_delete_ne by congruence. auto.
Qed.

(** Success and the directory: [success(u)] is called exactly when the
    extracted token decodes to a payload for which [validate] resolves
    to [u]. *)
Lemma authenticate_success (now : Z) (req : IHttpRequest)
    (u : gmap string FieldValue) :
  fst (auth now req) = Success u <->
  exists t p, fst (extract req) = Some t
              /\ decodeRefreshToken jwtService t = Some p
              /\ fst (check now p) = Rx.Resolved (Some u).
Proof.
  rewrite authenticate_eq. split.
  - destruct (fst (extract req)) as [t|]; [|discriminate].
    destruct (decodeRefreshToken jwtService t) as [p|] eqn:Ed; [|discriminate].
    simpl. intros H. exists t, p.
    split; [reflexivity | split; [exact Ed|]].
    destruct (fst (check now p)) as [[u'|]|e]; inversion H; reflexivity.
  - intros (t & p & -> & -> & ->). reflexivity.
Qed.

Lemma validate_resolves (now : Z) (p : IJwtPayload)
    (u : gmap string FieldValue) :
  fst (check now p) = Rx.Resolved (Some u) <->
  isAfter now (exp p * 1000) = false
  /\ exists r,
       Rx.lastValueFrom (getAuthUserByUsername authRepository (username p))
       = Rx.Resolved (Some r)
       /\ u = omitFields (redactedFields authDefinitions) r.
Proof.
  rewrite validate_eq.
  destruct (isAfter now (exp p * 1000)); simpl.
  - split; [discriminate | intros [? _]; discriminate].
  - destruct (Rx.lastValueFrom _) as [[r|]|e]; simpl.
    + split.
      * intros [= <-]. eauto.
      * intros (_ & r' & [= <-] & ->). reflexivity.
    + split; [discriminate | intros (_ & r' & ? & _); discriminate].
    + split; [discriminate | intros (_ & r' & ? & _); discriminate].
Qed.

Lemma validate_rejects (now : Z) (p : IJwtPayload) (err : string) :
  fst (check now p) = Rx.RejectedWith err <->
  isAfter now (exp p * 1000) = false
  /\ Rx.lastValueFrom (getAuthUserByUsername authRepository (username p))
     = Rx.RejectedWith err.
Proof.
  rewrite validate_eq.
  destruct (isAfter now (exp p * 1000)); simpl.
  - split; intros; break_hyps.
  - destruct (Rx.lastValueFrom _) as [found|e]; simpl;
      split; intros; break_hyps; auto.
Qed.

(** C6. The user passed to [success] is the directory's record with the
    configured redacted fields removed: every field named in
    [authDefinitions.redactedFields] is absent from it, and every other
    field is as the directory has it. *)
Theorem C6_success_user_is_redacted (now : Z) (req : IHttpRequest)
    (user : gmap string FieldValue)
    (Hsuccess : fst (auth now req) = Success user) :
  (exists t p r,
      fst (extract req) = Some t
      /\ decodeRefreshToken jwtService t = Some p
      /\ Rx.lastValueFrom (getAuthUserByUsername authRepository (username p))
         = Rx.Resolved (Some r)
      /\ hideRedactedFields (redactedFields authDefinitions) (Some r)
         = Some user
      /\ (forall f, f ∉ redactedFields authDefinitions -> user !! f = r !! f))
  /\ (forall f, f ∈ redactedFields authDefinitions -> user !! f = None).
Proof.
  apply authenticate_success in Hsuccess as (t & p & Ht & Hp & Hv).
  apply validate_resolves in Hv as (_ & r & Hr & ->).
  split.
  - exists t, p, r. repeat split; auto.
    intros f Hf. apply omitFields_lookup_kept, Hf.
  - intros f Hf. apply omitFields_lookup_omitted, Hf.
Qed.

(** C7. For a decoded payload that has not expired, the user passed to
    [success] is the record the directory returns for the payload's
    username at validation time, redacted; the lookup is made in this
    call, and nothing of the user comes from the token's claims. *)
Theorem C7_user_is_resolved_from_directory
    (now : Z) (req : IHttpRequest) (t : string) (p : IJwtPayload)
    (r : gmap string FieldValue)
    (Htoken : fst (extract req) = Some t)
    (Hdecode : decodeRefreshToken jwtService t = Some p)
    (Hlive : (now <= exp p * 1000)%Z)
    (Hfound : Rx.lastValueFrom
                (getAuthUserByUsername authRepository (username p))
              = Rx.Resolved (Some r)) :
  fst (auth now req)
  = Success (omitFields (redactedFields authDefinitions) r)
  /\ DirectoryLookup (username p) ∈ snd (auth now req).
Proof.
  assert (Hv : check now p
               = (Rx.Resolved
                    (Some (omitFields (redactedFields authDefinitions) r)),
                  [DirectoryLookup (username p)])).
  { rewrite validate_eq. apply isAfter_false in Hlive. rewrite Hlive, Hfound.
    reflexivity. }
  rewrite authenticate_eq, Htoken, Hdecode, Hv. simpl. split; [reflexivity|].
  rewrite elem_of_app, !elem_of_cons. auto.
Qed.

(** C10. A decoded, unexpired payload whose username the directory no
    longer knows (the lookup yields undefined) is rejected: [validate]
    passes the absence on and [authenticate] calls [fail(401)]. *)
Theorem C10_unknown_user_rejected
    (now : Z) (req : IHttpRequest) (t : string) (p : IJwtPayload)
    (Htoken : fst (extract req) = Some t)
    (Hdecode : decodeRefreshToken jwtService t = Some p)
    (Hlive : (now <= exp p * 1000)%Z)
    (Hgone : Rx.lastValueFrom
               (getAuthUserByUsername authRepository (username p))
             = Rx.Resolved None) :
  check now p = (Rx.Resolved None, [DirectoryLookup (username p)])
  /\ auth now req
     = (Fail UNAUTHORIZED,
        snd (extract req)
        ++ [Decode RefreshClass t; DirectoryLookup (username p)])%list.
Proof.
  assert (Hv : check now p
               = (Rx.Resolved None, [DirectoryLookup (username p)])).
  { rewrite validate_eq. apply isAfter_false in Hlive. rewrite Hlive, Hgone.
    reflexivity. }
  split; [exact Hv|].
  rewrite authenticate_eq, Htoken, Hdecode, Hv. reflexivity.
Qed.

(** ** Outcomes *)

(** C5, amended. [authenticate] ends in [fail], [success] or a rejected
    promise. It calls [fail], always with 401, exactly when no token is
    extracted, the decoder returns no payload, or [validate] resolves to
    no user; it calls [success(user)] exactly when [validate] resolves
    to [user]; its promise rejects exactly when [validate]'s does, which
    for a payload whose [exp * 1000] is a date means that the payload is
    unexpired and the directory lookup errors or completes without a
    value. When every lookup completes with a value, the outcome is
    [fail(401)] or [success]. *)
Theorem C5_outcomes_of_authenticate (now : Z) (req : IHttpRequest) :
  let out := fst (auth now req) in
  let payload := fst (extract req) ≫= decodeRefreshToken jwtService in
  (forall status,
      out = Fail status <->
      status = UNAUTHORIZED
      /\ (fst (extract req) = None
          \/ payload = None
          \/ exists p, payload = Some p /\ fst (check now p) = Rx.Resolved None))
  /\ (forall user,
        out = Success user <->
        exists p, payload = Some p
                  /\ fst (check now p) = Rx.Resolved (Some user))
  /\ (forall err,
        out = Rejected err <->
        exists p, payload = Some p
                  /\ fst (check now p) = Rx.RejectedWith err)
  /\ (forall p err,
        validDate (exp p * 1000) = true ->
        (fst (check now p) = Rx.RejectedWith err <->
         (now <= exp p * 1000)%Z
         /\ Rx.lastValueFrom
              (getAuthUserByUsername authRepository (username p))
            = Rx.RejectedWith err))
  /\ ((forall u, exists found,
          Rx.lastValueFrom (getAuthUserByUsername authRepository u)
          = Rx.Resolved found) ->
      out = Fail UNAUTHORIZED \/ exists user, out = Success user).
Proof.
  intros out payload.
  assert (Hdate : forall p err,
             validDate (exp p * 1000) = true ->
             (fst (check now p) = Rx.RejectedWith err <->
              (now <= exp p * 1000)%Z
              /\ Rx.lastValueFrom
                   (getAuthUserByUsername authRepository (username p))
                 = Rx.RejectedWith err)).
  { intros p err Hv. rewrite validate_rejects, isAfter_false_iff.
    split; [intros [[H | H] ?]; [auto | congruence] | intros [? ?]; auto]. }
  subst out payload. rewrite authenticate_eq.
  destruct (fst (extract req)) as [t|]; simpl;
    [destruct (decodeRefreshToken jwtService t) as [p|]; simpl|].
  2, 3: (split; [|split; [|split; [|split]]]); [| | |exact Hdate|];
        intros; [split| split| split| auto];
        intros; break_hyps; auto 6.
  destruct (fst (check now p)) as [[u|]|e] eqn:Hv;
    (split; [|split; [|split; [|split]]]); try exact Hdate;
    intros; try split; intros; break_hyps;
    try congruence; eauto 7.
  apply validate_rejects in Hv as [_ Hv].
  destruct (H (username p)) as [found Hf]. congruence.
Qed.

End StrategyFacts.

(** ** Issuance and decoding *)

(** C8. Decoding a freshly issued access token gives back a payload whose
    username is the one the token was issued for and whose [exp] is the
    issue time plus the configured access-token time span, the signer
    being configured with [jwt.secret] and [jwt.expiresIn] of the auth
    definitions. *)
Theorem C8_access_token_round_trip
    (sign : string -> IJwtPayload -> string) (definitions : IAuthDefinitions)
    (u : string) (issueTime : Z) :
  let options := TokenCodec.useFactory definitions in
  TokenCodec.jwtSecret options = secret (jwt definitions)
  /\ TokenCodec.signExpiresIn (TokenCodec.signOptions options)
     = expiresIn (jwt definitions)
  /\ exists p,
       TokenCodec.decodeAccessToken sign options
         (TokenCodec.issueAccessToken sign options issueTime u) = Some p
       /\ username p = u
       /\ exp p = (issueTime + expiresIn (jwt definitions))%Z.
Proof.
  intros options. split; [reflexivity | split; [reflexivity|]].
  unfold TokenCodec.decodeAccessToken, TokenCodec.issueAccessToken. simpl.
  rewrite String.eqb_refl. eexists. repeat split.
Qed.

(** ** The claims at work on the concrete deployment *)

Example demo_accepts :
  Demo.run BOTH Demo.directory 1699999999000 (Demo.withHeader "alice")
  = (Success {[ "id" := "123456"; "username" := "alice" ]},
     [CookieRead "RefreshToken"; HeaderRead "refresh-token";
      Decode RefreshClass "alice"; DirectoryLookup "alice"]).
Proof. vm_compute. reflexivity. Qed.

Example demo_cookie_wins :
  Demo.run BOTH Demo.directory 1699999999000
    {| Demo.cookies := {[ "RefreshToken" := "alice" ]};
       Demo.headers := {[ "refresh-token" := "bob" ]} |}
  = (Success {[ "id" := "123456"; "username" := "alice" ]},
     [CookieRead "RefreshToken"; Decode RefreshClass "alice";
      DirectoryLookup "alice"]).
Proof. vm_compute. reflexivity. Qed.

Example demo_empty_cookie_falls_through :
  Demo.run BOTH Demo.directory 1699999999000
    {| Demo.cookies := {[ "RefreshToken" := "" ]};
       Demo.headers := {[ "refresh-token" := "alice" ]} |}
  = (Success {[ "id" := "123456"; "username" := "alice" ]},
     [CookieRead "RefreshToken"; HeaderRead "refresh-token";
      Decode RefreshClass "alice"; DirectoryLookup "alice"]).
Proof. vm_compute. reflexivity. Qed.

Example demo_round_trip :
  TokenCodec.decodeAccessToken (fun key p => key +:+ "/" +:+ username p)
    (TokenCodec.useFactory (Demo.definitions BOTH))
    (TokenCodec.issueAccessToken (fun key p => key +:+ "/" +:+ username p)
       (TokenCodec.useFactory (Demo.definitions BOTH)) 1700000000 "alice")
  = Some {| username := "alice"; iat := 1700000000; exp := 1700000900 |}.
Proof. vm_compute. reflexivity. Qed.

(** C1 as stated fails at the boundary: when the clock reads exactly
    [exp * 1000], [validate] does not return undefined but resolves the
    user. *)
Lemma C1_counterexample :
  (1700000000000 >= exp Demo.alicePayload * 1000)%Z
  /\ validate (Demo.definitions BOTH) Demo.directory 1700000000000 Demo.alicePayload
     = (Rx.Resolved (Some {[ "id" := "123456"; "username" := "alice" ]}),
        [DirectoryLookup "alice"])
  /\ fst (validate (Demo.definitions BOTH) Demo.directory 1700000000000
            Demo.alicePayload) <> Rx.Resolved None.
Proof.
  split; [vm_compute; discriminate|].
  split; [vm_compute; reflexivity|].
  vm_compute. discriminate.
Qed.

(** C5 as stated fails when the directory's observable completes without
    a value: [authenticate] calls neither [fail] nor [success], its
    promise rejects with [EmptyError]. *)
Lemma C5_counterexample :
  let out :=
    fst (Demo.run BOTH Demo.silentDirectory 1699999999000
           (Demo.withHeader "alice")) in
  out = Rejected Rx.EmptyError
  /\ out <> Fail UNAUTHORIZED
  /\ (forall user, out <> Success user).
Proof.
  vm_compute. repeat split; discriminate.
Qed.

(** An expired token of a known user: the header carries it, the clock is
    one second past [exp]. *)
Lemma expired_payload_rejected_before_lookup_witness :
  let req := Demo.withHeader "alice" in
  let now := 1700000001000%Z in
  fst (jwtFromRequest Demo.cookieOf Demo.headerOf (Demo.definitions BOTH) req)
  = Some "alice"
  /\ decodeRefreshToken Demo.tokens "alice" = Some Demo.alicePayload
  /\ validDate (exp Demo.alicePayload * 1000) = true
  /\ (exp Demo.alicePayload * 1000 < now)%Z
  /\ fst (Demo.run BOTH Demo.directory now req) = Fail UNAUTHORIZED.
Proof.
  intros req now.
  assert (Ht : fst (jwtFromRequest Demo.cookieOf Demo.headerOf
                      (Demo.definitions BOTH) req) = Some "alice")
    by (vm_compute; reflexivity).
  assert (Hd : decodeRefreshToken Demo.tokens "alice" = Some Demo.alicePayload)
    by (vm_compute; reflexivity).
  assert (Hv : validDate (exp Demo.alicePayload * 1000) = true)
    by (vm_compute; reflexivity).
  assert (Hp : (exp Demo.alicePayload * 1000 < now)%Z)
    by (vm_compute; reflexivity).
  split; [exact Ht | split; [exact Hd | split; [exact Hv | split; [exact Hp|]]]].
  exact (proj1 (proj2 (expired_payload_rejected_before_lookup
                         Demo.cookieOf Demo.headerOf (Demo.definitions BOTH)
                         Demo.directory Demo.tokens now req "alice"
                         Demo.alicePayload Ht Hd Hv Hp))).
Defined.

(** C2. The code lets through a payload whose [exp] lies so far in the
    past that [exp * 1000] is not a date: with [exp = -8640000000001]
    the comparison [isAfter] is false, the directory is consulted and
    [authenticate] calls [success], where the claim has it fail with 401
    before any lookup. *)
Lemma C2_ancient_exp_is_let_through :
  let now := 1700000000000%Z in
  (exp Scenarios.ancientPayload * 1000 < now)%Z
  /\ decodeRefreshToken Scenarios.ancientTokens "alice"
     = Some Scenarios.ancientPayload
  /\ validate (Demo.definitions BOTH) Demo.directory now
       Scenarios.ancientPayload
     = (Rx.Resolved (Some {[ "id" := "123456"; "username" := "alice" ]}),
        [DirectoryLookup "alice"])
  /\ authenticate Demo.cookieOf Demo.headerOf (Demo.definitions BOTH)
       Demo.directory Scenarios.ancientTokens now (Demo.withHeader "alice")
     = (Success {[ "id" := "123456"; "username" := "alice" ]},
        [CookieRead "RefreshToken"; HeaderRead "refresh-token";
         Decode RefreshClass "alice"; DirectoryLookup "alice"]).
Proof.
  intros now. subst now.
  split; [reflexivity|].
  split; [reflexivity|].
  split; vm_compute; reflexivity.
Qed.

(** The record handed to [success] for alice has no [password]. *)
Lemma C6_witness :
  let out := Demo.run BOTH Demo.directory 1699999999000
               (Demo.withCookie "alice") in
  let user : gmap string string := {[ "id" := "123456"; "username" := "alice" ]} in
  fst out = Success user /\ user !! "password" = None.
Proof.
  intros out user.
  assert (Hs : fst out = Success user) by (vm_compute; reflexivity).
  split; [exact Hs|].
  apply (proj2 (C6_success_user_is_redacted
                  Demo.cookieOf Demo.headerOf (Demo.definitions BOTH)
                  Demo.directory Demo.tokens 1699999999000
                  (Demo.withCookie "alice") user Hs)).
  vm_compute. left.
Defined.

(** In bearer mode, at the very instant [exp * 1000], alice is resolved
    from the directory. *)
Lemma C7_witness :
  let req := Demo.withHeader "alice" in
  let now := 1700000000000%Z in
  fst (jwtFromRequest Demo.cookieOf Demo.headerOf (Demo.definitions BEARER_ONLY)
         req) = Some "alice"
  /\ decodeRefreshToken Demo.tokens "alice" = Some Demo.alicePayload
  /\ (now <= exp Demo.alicePayload * 1000)%Z
  /\ Rx.lastValueFrom (getAuthUserByUsername Demo.directory "alice")
     = Rx.Resolved (Some Demo.alice)
  /\ fst (Demo.run BEARER_ONLY Demo.directory now req)
     = Success (omitFields ["password"] Demo.alice).
Proof.
  intros req now.
  assert (Ht : fst (jwtFromRequest Demo.cookieOf Demo.headerOf
                      (Demo.definitions BEARER_ONLY) req) = Some "alice")
    by (vm_compute; reflexivity).
  assert (Hd : decodeRefreshToken Demo.tokens "alice" = Some Demo.alicePayload)
    by (vm_compute; reflexivity).
  assert (Hl : (now <= exp Demo.alicePayload * 1000)%Z) by (vm_compute; discriminate).
  assert (Hf : Rx.lastValueFrom (getAuthUserByUsername Demo.directory
                                   (username Demo.alicePayload))
               = Rx.Resolved (Some Demo.alice)) by (vm_compute; reflexivity).
  split; [exact Ht | split; [exact Hd | split; [exact Hl | split; [exact Hf|]]]].
  exact (proj1 (C7_user_is_resolved_from_directory
                  Demo.cookieOf Demo.headerOf (Demo.definitions BEARER_ONLY)
                  Demo.directory Demo.tokens now req "alice" Demo.alicePayload
                  Demo.alice Ht Hd Hl Hf)).
Defined.

(** Cookie and header both present and empty. *)
Lemma C9_witness :
  let req := {| Demo.cookies := {[ "RefreshToken" := "" ]};
                Demo.headers := {[ "refresh-token" := "" ]} |} in
  Demo.cookieOf req REFRESH_TOKEN_COOKIE = Some ""
  /\ Demo.headerOf req REFRESH_TOKEN_HEADER = Some ""
  /\ fst (Demo.run BOTH Demo.directory 1699999999000 req) = Fail UNAUTHORIZED.
Proof.
  intros req.
  assert (Hc : Demo.cookieOf req REFRESH_TOKEN_COOKIE = Some "")
    by (vm_compute; reflexivity).
  assert (Hh : Demo.headerOf req REFRESH_TOKEN_HEADER = Some "")
    by (vm_compute; reflexivity).
  split; [exact Hc | split; [exact Hh|]].
  destruct (C9_empty_token_is_absent
              Demo.cookieOf Demo.headerOf (Demo.definitions BOTH)
              Demo.directory Demo.tokens 1699999999000 req (or_introl Hc))
    as (_ & _ & H).
  exact (proj1 (proj2 (H (or_introl Hh)))).
Defined.

(** A live token for bob, whom the directory does not know. *)
Lemma C10_witness :
  let req := Demo.withHeader "bob" in
  let now := 1699999999000%Z in
  fst (jwtFromRequest Demo.cookieOf Demo.headerOf (Demo.definitions BOTH) req)
  = Some "bob"
  /\ decodeRefreshToken Demo.tokens "bob" = Some Demo.bobPayload
  /\ (now <= exp Demo.bobPayload * 1000)%Z
  /\ Rx.lastValueFrom (getAuthUserByUsername Demo.directory "bob")
     = Rx.Resolved None
  /\ fst (Demo.run BOTH Demo.directory now req) = Fail UNAUTHORIZED.
Proof.
  intros req now.
  assert (Ht : fst (jwtFromRequest Demo.cookieOf Demo.headerOf
                      (Demo.definitions BOTH) req) = Some "bob")
    by (vm_compute; reflexivity).
  assert (Hd : decodeRefreshToken Demo.tokens "bob" = Some Demo.bobPayload)
    by (vm_compute; reflexivity).
  assert (Hl : (now <= exp Demo.bobPayload * 1000)%Z) by (vm_compute; discriminate).
  assert (Hg : Rx.lastValueFrom (getAuthUserByUsername Demo.directory
                                   (username Demo.bobPayload))
               = Rx.Resolved None) by (vm_compute; reflexivity).
  split; [exact Ht | split; [exact Hd | split; [exact Hl | split; [exact Hg|]]]].
  pose proof (proj2 (C10_unknown_user_rejected
                       Demo.cookieOf Demo.headerOf (Demo.definitions BOTH)
                       Demo.directory Demo.tokens now req "bob" Demo.bobPayload
                       Ht Hd Hl Hg)) as H.
  unfold Demo.run. rewrite H. reflexivity.
Defined.

(** One millisecond past [exp * 1000], and exactly at it. *)
Lemma C1_witness :
  let late := 1700000000001%Z in
  let sharp := 1700000000000%Z in
  validDate (exp Demo.alicePayload * 1000) = true
  /\ (exp Demo.alicePayload * 1000 < late)%Z
  /\ validate (Demo.definitions BOTH) Demo.directory late Demo.alicePayload
     = (Rx.Resolved None, [])
  /\ (sharp <= exp Demo.alicePayload * 1000)%Z
  /\ validate (Demo.definitions BOTH) Demo.directory sharp Demo.alicePayload
     = (resolved (Demo.definitions BOTH) Demo.directory Demo.alicePayload,
        [DirectoryLookup "alice"]).
Proof.
  intros late sharp.
  assert (H0 : validDate (exp Demo.alicePayload * 1000) = true)
    by (vm_compute; reflexivity).
  assert (H1 : (exp Demo.alicePayload * 1000 < late)%Z)
    by (vm_compute; reflexivity).
  assert (H2 : (sharp <= exp Demo.alicePayload * 1000)%Z)
    by (vm_compute; discriminate).
  split; [exact H0 | split; [exact H1 | split; [| split; [exact H2|]]]].
  - exact (proj1 (C1_expiry_is_strictly_after
                    (Demo.definitions BOTH) Demo.directory late
                    Demo.alicePayload) H0 H1).
  - exact (proj1 (proj2 (C1_expiry_is_strictly_after
                           (Demo.definitions BOTH) Demo.directory sharp
                           Demo.alicePayload)) H2).
Defined.

(** The extracted token is the one handed to [decodeRefreshToken]. *)
Lemma C4_witness :
  let req := Demo.withHeader "alice" in
  fst (jwtFromRequest Demo.cookieOf Demo.headerOf (Demo.definitions BOTH) req)
  = Some "alice"
  /\ Decode RefreshClass "alice"
     ∈ snd (Demo.run BOTH Demo.directory 1699999999000 req).
Proof.
  intros req.
  assert (Ht : fst (jwtFromRequest Demo.cookieOf Demo.headerOf
                      (Demo.definitions BOTH) req) = Some "alice")
    by (vm_compute; reflexivity).
  split; [exact Ht|].
  destruct (C4_only_refresh_channels
              Demo.cookieOf Demo.headerOf (Demo.definitions BOTH)
              Demo.directory Demo.tokens 1699999999000 req)
    as (_ & _ & _ & H & _).
  exact (H "alice" Ht).
Defined.

(** The one-user directory always emits; bob's token fails with 401. *)
Lemma C5_witness :
  let out := fst (Demo.run BOTH Demo.directory 1699999999000
                    (Demo.withHeader "bob")) in
  (forall u, exists found,
      Rx.lastValueFrom (getAuthUserByUsername Demo.directory u)
      = Rx.Resolved found)
  /\ (out = Fail UNAUTHORIZED \/ exists user, out = Success user).
Proof.
  intros out.
  assert (Hall : forall u, exists found,
             Rx.lastValueFrom (getAuthUserByUsername Demo.directory u)
             = Rx.Resolved found)
    by (intros u; eexists; reflexivity).
  split; [exact Hall|].
  destruct (C5_outcomes_of_authenticate
              Demo.cookieOf Demo.headerOf (Demo.definitions BOTH)
              Demo.directory Demo.tokens 1699999999000
              (Demo.withHeader "bob"))
    as (_ & _ & _ & _ & H).
  exact (H Hall).
Defined.

(** * Further properties of the strategy *)

Section StrategyEdges.

Context {IHttpRequest FieldValue : Type}.
Variable getRequestCookie : IHttpRequest -> string -> option string.
Variable getRequestHeader : IHttpRequest -> string -> option string.
Variable authDefinitions : IAuthDefinitions.
Variable authRepository : AuthRepository FieldValue.
Variable jwtService : TokenService.

Local Abbreviation cookieOf req := (getRequestCookie req REFRESH_TOKEN_COOKIE).
Local Abbreviation headerOf req := (getRequestHeader req REFRESH_TOKEN_HEADER).
Local Abbreviation extract :=
  (jwtFromRequest getRequestCookie getRequestHeader authDefinitions).
Local Abbreviation check :=
  (validate (FieldValue := FieldValue) authDefinitions authRepository).
Local Abbreviation auth :=
  (authenticate getRequestCookie getRequestHeader authDefinitions
     authRepository jwtService).
Local Abbreviation lookup u := (getAuthUserByUsername authRepository u).
Local Abbreviation hide :=
  (hideRedactedFields (FieldValue := FieldValue)
     (redactedFields authDefinitions)).

(** The extracted token is the cookie's value or the header's, as it
    is, and never the empty string. *)
Lemma jwtFromRequest_Some (req : IHttpRequest) (t : string) :
  fst (extract req) = Some t ->
  t <> "" /\ (cookieOf req = Some t \/ headerOf req = Some t).
Proof.
  rewrite jwtFromRequest_eq.
  assert (Hor : forall v, orNull v = Some t -> t <> "" /\ v = Some t).
  { intros v. unfold orNull. destruct (truthy v) eqn:E; [|discriminate].
    intros ->. destruct (truthy_Some _ E) as (t' & [= <-] & Hne). auto. }
  destruct (transferTokenMethod authDefinitions); simpl.
  - intros H. apply Hor in H as [? ?]. auto.
  - intros H. apply Hor in H as [? ?]. auto.
  - destruct (truthy (cookieOf req)) eqn:E; simpl.
    + intros H. destruct (truthy_Some _ E) as (t' & Hc & Hne).
      rewrite Hc in H. injection H as <-. auto.
    + intros H. apply Hor in H as [? ?]. auto.
Qed.

(** X1. In mode [both] a non-empty cookie settles the request: when the
    decoder turns its token down, [authenticate] fails with 401 after
    reading the cookie and calling the decoder once; the header is not
    read, whatever it carries. *)
Theorem both_mode_bad_cookie_is_final (now : Z) (req : IHttpRequest)
    (t : string)
    (Hmode : transferTokenMethod authDefinitions = BOTH)
    (Hcookie : cookieOf req = Some t)
    (Hnonempty : t <> "")
    (Hbad : decodeRefreshToken jwtService t = None) :
  auth now req
  = (Fail UNAUTHORIZED,
     [CookieRead REFRESH_TOKEN_COOKIE; Decode RefreshClass t]).
Proof.
  assert (Ht : truthy (cookieOf req) = true).
  { rewrite Hcookie. simpl. apply negb_true_iff, String.eqb_neq, Hnonempty. }
  rewrite authenticate_eq, jwtFromRequest_eq, Hmode, Ht, Hcookie. simpl.
  rewrite Hbad. reflexivity.
Qed.

(** X3. One call of [authenticate] reads one or two channels, then calls
    the decoder at most once, then the directory at most once, and the
    directory only after the decoder. *)
Theorem authenticate_trace_shape (now : Z) (req : IHttpRequest) :
  exists decodes lookups,
    snd (authenticate getRequestCookie getRequestHeader authDefinitions
           authRepository jwtService now req)
    = (snd (extract req) ++ decodes ++ lookups)%list
    /\ 1 <= length (snd (extract req)) <= 2
    /\ (decodes = [] \/ exists t, decodes = [Decode RefreshClass t])
    /\ (lookups = [] \/ exists u, lookups = [DirectoryLookup u])
    /\ (decodes = [] -> lookups = []).
Proof.
  assert (Hreads : 1 <= length (snd (extract req)) <= 2).
  { rewrite jwtFromRequest_eq.
    destruct (transferTokenMethod authDefinitions); simpl; try lia.
    destruct (truthy (cookieOf req)); simpl; lia. }
  rewrite authenticate_eq.
  destruct (fst (extract req)) as [t|]; simpl.
  - destruct (decodeRefreshToken jwtService t) as [p|]; simpl.
    + exists [Decode RefreshClass t], (snd (check now p)).
      split; [reflexivity|]. split; [exact Hreads|].
      split; [eauto|]. split; [|discriminate].
      rewrite validate_eq. destruct (isAfter now (exp p * 1000)); simpl; eauto.
    + exists [Decode RefreshClass t], []. rewrite app_nil_r. eauto 10.
  - exists [], []. rewrite !app_nil_r. eauto 10.
Qed.

(** X4. The directory is consulted exactly when the extracted token
    decodes to a payload that [validate] does not take as expired, that
    is, when the clock is at or before [exp * 1000] or [exp * 1000] is
    not a date; and then for that payload's username. *)
Theorem directory_lookup_iff (now : Z) (req : IHttpRequest) (u : string) :
  DirectoryLookup u
  ∈ snd (authenticate getRequestCookie getRequestHeader authDefinitions
           authRepository jwtService now req) <->
  exists t p, fst (extract req) = Some t
              /\ decodeRefreshToken jwtService t = Some p
              /\ ((now <= exp p * 1000)%Z
                  \/ validDate (exp p * 1000) = false)
              /\ username p = u.
Proof.
  assert (Hreads : DirectoryLookup u ∉ snd (extract req)).
  { intros H. apply jwtFromRequest_trace in H. destruct H; discriminate. }
  rewrite authenticate_eq.
  destruct (fst (extract req)) as [t|]; simpl.
  - destruct (decodeRefreshToken jwtService t) as [p|] eqn:Ed; simpl.
    + rewrite elem_of_app, elem_of_cons, validate_eq.
      destruct (isAfter now (exp p * 1000)) eqn:Ea; simpl.
      * rewrite elem_of_nil. split.
        -- intros [H | [H | []]]; [contradiction | discriminate].
        -- intros (t' & p' & [= <-] & Hp & Hl & _).
           rewrite Ed in Hp. injection Hp as <-.
           apply isAfter_false_iff in Hl. congruence.
      * apply isAfter_false_iff in Ea.
        rewrite elem_of_cons, elem_of_nil. split.
        -- intros [H | [H | [[= ->] | []]]];
             [contradiction | discriminate | eauto 6].
        -- intros (t' & p' & [= <-] & Hp & _ & <-).
           rewrite Ed in Hp. injection Hp as <-. auto.
    + rewrite elem_of_app, elem_of_cons, elem_of_nil. split.
      * intros [H | [H | []]]; [contradiction | discriminate].
      * intros (t' & p' & [= <-] & Hp & _). congruence.
  - split; [contradiction|]. intros (t' & p' & ? & _). discriminate.
Qed.

(** X5. The decoder is never handed the empty string: the token it gets
    is the value of the cookie or of the header, unchanged, and not
    empty. *)
Theorem decoder_gets_channel_value (now : Z) (req : IHttpRequest)
    (class : TokenClass) (t : string)
    (Hcalled : Decode class t ∈ snd (auth now req)) :
  t <> "" /\ (cookieOf req = Some t \/ headerOf req = Some t).
Proof.
  apply jwtFromRequest_Some.
  rewrite authenticate_eq in Hcalled.
  destruct (fst (extract req)) as [t'|]; simpl in Hcalled.
  - destruct (decodeRefreshToken jwtService t') as [p|]; simpl in Hcalled;
      rewrite elem_of_app, elem_of_cons in Hcalled;
      destruct Hcalled as [H | [H | H]].
    + apply jwtFromRequest_trace in H. destruct H; discriminate.
    + congruence.
    + apply validate_trace in H. discriminate.
    + apply jwtFromRequest_trace in H. destruct H; discriminate.
    + congruence.
    + apply elem_of_nil in H. destruct H.
  - apply jwtFromRequest_trace in Hcalled. destruct Hcalled; discriminate.
Qed.

(** X6. Nothing bounds a token from below: a request that succeeds at
    one time succeeds, with the same user and the same calls, at every
    earlier time; [iat] is not looked at. *)
Theorem success_at_every_earlier_time (now earlier : Z) (req : IHttpRequest)
    (user : gmap string FieldValue)
    (Hsuccess : fst (auth now req) = Success user)
    (Hearlier : (earlier <= now)%Z) :
  authenticate getRequestCookie getRequestHeader authDefinitions
    authRepository jwtService earlier req
  = authenticate getRequestCookie getRequestHeader authDefinitions
      authRepository jwtService now req.
Proof.
  apply authenticate_success in Hsuccess as (t & p & Ht & Hp & Hv).
  apply validate_resolves in Hv as (E1 & _).
  rewrite !authenticate_eq, Ht, Hp, !validate_eq.
  pose proof (isAfter_earlier _ _ _ E1 Hearlier) as E2.
  rewrite E1, E2. reflexivity.
Qed.

(** X7. Of a payload, [validate] uses the username and whether it
    takes the payload as expired, that is, whether [exp * 1000] is a date
    before the clock: two payloads with the same username, both expired
    in this sense or both not, give the same result and the same
    calls. *)
Theorem validate_reads_username_and_expiry (now : Z) (p q : IJwtPayload)
    (Hname : username p = username q)
    (Hside : validDate (exp p * 1000) = true /\ (exp p * 1000 < now)%Z <->
             validDate (exp q * 1000) = true /\ (exp q * 1000 < now)%Z) :
  validate authDefinitions authRepository now p
  = validate authDefinitions authRepository now q.
Proof.
  rewrite !validate_eq, Hname.
  destruct (isAfter now (exp p * 1000)) eqn:Ep;
    destruct (isAfter now (exp q * 1000)) eqn:Eq; try reflexivity.
  - apply isAfter_true in Ep. apply Hside, isAfter_true in Ep. congruence.
  - apply isAfter_true in Eq. apply Hside, isAfter_true in Eq. congruence.
Qed.

(** X8. When the lookup emits several values before completing, the last
    one is the user: the earlier ones are dropped. *)
Theorem last_emission_is_the_user (now : Z) (p : IJwtPayload)
    (earlier : list (option (gmap string FieldValue)))
    (final : option (gmap string FieldValue))
    (Hlive : (now <= exp p * 1000)%Z)
    (Hemits : lookup (username p)
              = Rx.mkObservable (earlier ++ [final]) Rx.Completed) :
  check now p = (Rx.Resolved (hide final), [DirectoryLookup (username p)]).
Proof.
  rewrite validate_eq. apply isAfter_false in Hlive. rewrite Hlive, Hemits.
  unfold Rx.lastValueFrom. simpl. rewrite last_snoc. reflexivity.
Qed.

(** X9. When the lookup ends in an error, [authenticate] rejects with
    that error and calls neither [fail] nor [success], even if a user
    was emitted before the error. *)
Theorem lookup_error_rejects (now : Z) (req : IHttpRequest) (t : string)
    (p : IJwtPayload) (err : string)
    (Htoken : fst (extract req) = Some t)
    (Hdecode : decodeRefreshToken jwtService t = Some p)
    (Hlive : (now <= exp p * 1000)%Z)
    (Herror : Rx.ending (lookup (username p)) = Rx.Errored err) :
  fst (auth now req) = Rejected err.
Proof.
  rewrite authenticate_eq, Htoken, Hdecode, validate_eq.
  apply isAfter_false in Hlive. rewrite Hlive.
  unfold Rx.lastValueFrom. rewrite Herror. reflexivity.
Qed.

End StrategyEdges.

(** X2. The channel a mode excludes has no influence: in mode [cookie]
    the outcome and the calls are the same whatever the headers are, in
    mode [bearer] whatever the cookies are, and in mode [both] the
    headers have no influence once the cookie is non-empty. *)
Theorem excluded_channel_has_no_influence
    {IHttpRequest FieldValue : Type}
    (getRequestCookie getRequestCookie' : IHttpRequest -> string -> option string)
    (getRequestHeader getRequestHeader' : IHttpRequest -> string -> option string)
    (authDefinitions : IAuthDefinitions)
    (authRepository : AuthRepository FieldValue) (jwtService : TokenService)
    (now : Z) (req : IHttpRequest) :
  match transferTokenMethod authDefinitions with
  | COOKIE_ONLY =>
      authenticate getRequestCookie getRequestHeader authDefinitions
        authRepository jwtService now req
      = authenticate getRequestCookie getRequestHeader' authDefinitions
          authRepository jwtService now req
  | BEARER_ONLY =>
      authenticate getRequestCookie getRequestHeader authDefinitions
        authRepository jwtService now req
      = authenticate getRequestCookie' getRequestHeader authDefinitions
          authRepository jwtService now req
  | BOTH =>
      truthy (getRequestCookie req REFRESH_TOKEN_COOKIE) = true ->
      authenticate getRequestCookie getRequestHeader authDefinitions
        authRepository jwtService now req
      = authenticate getRequestCookie getRequestHeader' authDefinitions
          authRepository jwtService now req
  end.
Proof.
  unfold authenticate.
  pose proof (jwtFromRequest_eq getRequestCookie getRequestHeader
                authDefinitions req) as E.
  pose proof (jwtFromRequest_eq getRequestCookie getRequestHeader'
                authDefinitions req) as Eh.
  pose proof (jwtFromRequest_eq getRequestCookie' getRequestHeader
                authDefinitions req) as Ec.
  destruct (transferTokenMethod authDefinitions).
  - rewrite E, Eh. reflexivity.
  - rewrite E, Ec. reflexivity.
  - intros Ht. rewrite Ht in E, Eh. rewrite E, Eh. reflexivity.
Qed.

(** * The module definition *)

Section ModuleFacts.

Context {Factory UserType UserImport DefinitionsOptions : Type}.

Local Abbreviation Options :=
  (@AuthModule.IAuthModuleOptions Factory UserType UserImport
     DefinitionsOptions).

(** X10. Whatever the options, the module registers each token once,
    exports only what it provides, and lists no controller or export
    twice; the three strategies are among the exports. *)
Theorem forRootAsync_well_formed (options : Options) :
  let m := AuthModule.forRootAsync options in
  NoDup (AuthModule.provide <$> AuthModule.providers m)
  /\ (forall name, name ∈ AuthModule.exports m ->
        name ∈ AuthModule.provide <$> AuthModule.providers m)
  /\ NoDup (AuthModule.exports m)
  /\ NoDup (AuthModule.controllers m)
  /\ (forall s, s ∈ [AuthModule.LocalStrategy; AuthModule.JwtStrategy;
                      AuthModule.RefreshTokenStrategy] ->
        s ∈ AuthModule.exports m).
Proof.
  intros m. subst m. simpl.
  split; [apply (bool_decide_unpack _); vm_compute; exact I|].
  split.
  { apply Forall_forall. apply (bool_decide_unpack _). vm_compute. exact I. }
  split; [apply (bool_decide_unpack _); vm_compute; exact I|].
  split; [apply (bool_decide_unpack _); vm_compute; exact I|].
  apply Forall_forall. apply (bool_decide_unpack _). vm_compute. exact I.
Qed.

(** X11. The repository token has one provider, a factory. It is the
    caller's factory, and [LocalAuthRepository]'s only when the caller
    gives none; its inject array is the caller's, as given, an empty one
    included, and [[AUTH_PASSWORD_HASHER]] when the caller gives none. So
    the password hasher is injected when the caller gives no array or
    lists it, and not otherwise. *)
Theorem repository_provider (options : Options) :
  exists factory injected,
    (forall p, p ∈ AuthModule.providers (AuthModule.forRootAsync options) ->
       AuthModule.provide p = AuthModule.AuthRepository ->
       p = AuthModule.FactoryProvider AuthModule.AuthRepository factory
             (Some injected))
    /\ (AuthModule.FactoryProvider AuthModule.AuthRepository factory
          (Some injected)
        ∈ AuthModule.providers (AuthModule.forRootAsync options))
    /\ (factory = AuthModule.NewLocalAuthRepository <->
        AuthModule.useFactory (AuthModule.authRepository options) = None)
    /\ (forall f, AuthModule.useFactory (AuthModule.authRepository options)
                  = Some f -> factory = AuthModule.Given f)
    /\ (AuthModule.inject (AuthModule.authRepository options) = None ->
        injected = [AuthModule.ByName AuthModule.AUTH_PASSWORD_HASHER])
    /\ (forall tokens,
          AuthModule.inject (AuthModule.authRepository options) = Some tokens ->
          injected = tokens)
    /\ (AuthModule.ByName AuthModule.AUTH_PASSWORD_HASHER ∈ injected <->
        AuthModule.inject (AuthModule.authRepository options) = None
        \/ exists tokens,
             AuthModule.inject (AuthModule.authRepository options)
             = Some tokens
             /\ AuthModule.ByName AuthModule.AUTH_PASSWORD_HASHER ∈ tokens).
Proof.
  eexists _, _. split; [|split].
  - intros p Hp Hname. simpl in Hp.
    repeat (apply elem_of_cons in Hp as [-> | Hp]);
      try discriminate Hname; [reflexivity|].
    apply elem_of_nil in Hp. destruct Hp.
  - simpl. apply elem_of_cons. right. apply elem_of_cons. left. reflexivity.
  - destruct (AuthModule.useFactory (AuthModule.authRepository options));
      destruct (AuthModule.inject (AuthModule.authRepository options))
        as [tokens|]; simpl;
      (split; [split; congruence|]);
      (split; [congruence|]);
      (split; [congruence|]);
      (split; [congruence|]).
    + split; [eauto | intros [? | (? & [= <-] & ?)]; [discriminate | auto]].
    + split; [auto |]. intros _. apply elem_of_cons. auto.
    + split; [eauto | intros [? | (? & [= <-] & ?)]; [discriminate | auto]].
    + split; [auto |]. intros _. apply elem_of_cons. auto.
Qed.

End ModuleFacts.

(** * The PBKDF2 hasher *)

(** X12. [compare] accepts a password against a stored hash exactly when
    the key derived from it with the stored salt is the stored key; so a
    password always verifies against its own hash, whatever salt was
    drawn, and the salt is stored as drawn. *)
Theorem pbkdf2_compare_iff
    (pbkdf2Sync : string -> string -> Z -> Z -> string -> string)
    (drawnSalt password candidate : string) :
  let stored := Pbkdf2.hashWith pbkdf2Sync drawnSalt password in
  Pbkdf2.salt stored = drawnSalt
  /\ Pbkdf2.compare pbkdf2Sync password stored = true
  /\ (Pbkdf2.compare pbkdf2Sync candidate stored = true <->
      pbkdf2Sync candidate drawnSalt 10000%Z 512%Z "sha512"
      = pbkdf2Sync password drawnSalt 10000%Z 512%Z "sha512").
Proof.
  intros stored. subst stored. unfold Pbkdf2.compare, Pbkdf2.hashWith. simpl.
  split; [reflexivity|]. split; [apply String.eqb_refl|].
  rewrite String.eqb_eq. split; congruence.
Qed.

(** * The further properties at work *)

Example demo_last_emission :
  authenticate Demo.cookieOf Demo.headerOf (Demo.definitions BOTH)
    Scenarios.changingDirectory Demo.tokens 1699999999000
    (Demo.withHeader "alice")
  = (Success {[ "id" := "123456"; "username" := "alice" ]},
     [CookieRead "RefreshToken"; HeaderRead "refresh-token";
      Decode RefreshClass "alice"; DirectoryLookup "alice"]).
Proof. vm_compute. reflexivity. Qed.

Example demo_readme_module :
  AuthModule.FactoryProvider AuthModule.AuthRepository
    (AuthModule.Given "CmsAuthRepository")
    (Some [AuthModule.ByName AuthModule.AUTH_PASSWORD_HASHER])
  ∈ AuthModule.providers
      (AuthModule.forRootAsync (UserType := string) (UserImport := string)
         {| AuthModule.imports := None;
            AuthModule.definitions := "ConfigService";
            AuthModule.authRepository :=
              {| AuthModule.useFactory := Some "CmsAuthRepository";
                 AuthModule.inject :=
                   Some [AuthModule.ByName AuthModule.AUTH_PASSWORD_HASHER] |};
            AuthModule.passwordHasher := None |}).
Proof. simpl. rewrite !elem_of_cons. auto. Qed.

Example demo_hasher :
  let stored := Pbkdf2.hashWith Scenarios.toyPbkdf2 "00ff" "secret" in
  Pbkdf2.compare Scenarios.toyPbkdf2 "secret" stored = true
  /\ Pbkdf2.compare Scenarios.toyPbkdf2 "Secret" stored = false.
Proof. vm_compute. split; reflexivity. Qed.

(** A cookie the decoder turns down, beside a header it would take. *)
Lemma both_mode_bad_cookie_is_final_witness :
  let req := Scenarios.cookieAndHeader "mallory" "alice" in
  transferTokenMethod (Demo.definitions BOTH) = BOTH
  /\ Demo.cookieOf req REFRESH_TOKEN_COOKIE = Some "mallory"
  /\ "mallory" <> ""
  /\ decodeRefreshToken Scenarios.strictTokens "mallory" = None
  /\ decodeRefreshToken Scenarios.strictTokens "alice"
     = Some Demo.alicePayload
  /\ authenticate Demo.cookieOf Demo.headerOf (Demo.definitions BOTH)
       Demo.directory Scenarios.strictTokens 1699999999000 req
     = (Fail UNAUTHORIZED,
        [CookieRead REFRESH_TOKEN_COOKIE; Decode RefreshClass "mallory"]).
Proof.
  intros req.
  assert (Hm : transferTokenMethod (Demo.definitions BOTH) = BOTH)
    by reflexivity.
  assert (Hc : Demo.cookieOf req REFRESH_TOKEN_COOKIE = Some "mallory")
    by (vm_compute; reflexivity).
  assert (Hn : "mallory" <> "") by discriminate.
  assert (Hb : decodeRefreshToken Scenarios.strictTokens "mallory" = None)
    by (vm_compute; reflexivity).
  split; [exact Hm | split; [exact Hc | split; [exact Hn | split; [exact Hb|]]]].
  split; [vm_compute; reflexivity|].
  exact (both_mode_bad_cookie_is_final Demo.cookieOf Demo.headerOf
           (Demo.definitions BOTH) Demo.directory Scenarios.strictTokens
           1699999999000 req "mallory" Hm Hc Hn Hb).
Defined.

(** In mode [both], with a cookie, requests that differ in the header. *)
Lemma excluded_channel_has_no_influence_witness :
  let req := Demo.withCookie "alice" in
  truthy (Demo.cookieOf req REFRESH_TOKEN_COOKIE) = true
  /\ authenticate Demo.cookieOf Demo.headerOf (Demo.definitions BOTH)
       Demo.directory Demo.tokens 1699999999000 req
     = authenticate Demo.cookieOf (fun _ _ => Some "bob")
         (Demo.definitions BOTH) Demo.directory Demo.tokens 1699999999000 req.
Proof.
  intros req.
  assert (Ht : truthy (Demo.cookieOf req REFRESH_TOKEN_COOKIE) = true)
    by (vm_compute; reflexivity).
  split; [exact Ht|].
  exact (excluded_channel_has_no_influence
           Demo.cookieOf Demo.cookieOf Demo.headerOf (fun _ _ => Some "bob")
           (Demo.definitions BOTH) Demo.directory Demo.tokens
           1699999999000 req Ht).
Defined.

(** The token of the header is what the decoder was called with. *)
Lemma decoder_gets_channel_value_witness :
  let req := Demo.withHeader "alice" in
  Decode RefreshClass "alice"
  ∈ snd (authenticate Demo.cookieOf Demo.headerOf (Demo.definitions BOTH)
           Demo.directory Demo.tokens 1699999999000 req)
  /\ "alice" <> ""
  /\ (Demo.cookieOf req REFRESH_TOKEN_COOKIE = Some "alice"
      \/ Demo.headerOf req REFRESH_TOKEN_HEADER = Some "alice").
Proof.
  intros req.
  assert (Hd : Decode RefreshClass "alice"
               ∈ snd (authenticate Demo.cookieOf Demo.headerOf
                        (Demo.definitions BOTH) Demo.directory Demo.tokens
                        1699999999000 req)).
  { assert (E : snd (authenticate Demo.cookieOf Demo.headerOf
                        (Demo.definitions BOTH) Demo.directory Demo.tokens
                        1699999999000 req)
                 = [CookieRead "RefreshToken"; HeaderRead "refresh-token";
                    Decode RefreshClass "alice"; DirectoryLookup "alice"])
      by (vm_compute; reflexivity).
    rewrite E, !elem_of_cons. auto. }
  split; [exact Hd|].
  exact (decoder_gets_channel_value Demo.cookieOf Demo.headerOf
           (Demo.definitions BOTH) Demo.directory Demo.tokens
           1699999999000 req RefreshClass "alice" Hd).
Defined.

(** A token accepted at its last instant is accepted in 1970 too. *)
Lemma success_at_every_earlier_time_witness :
  let req := Demo.withHeader "alice" in
  let user : gmap string string :=
    {[ "id" := "123456"; "username" := "alice" ]} in
  fst (Demo.run BOTH Demo.directory 1700000000000 req) = Success user
  /\ (0 <= 1700000000000)%Z
  /\ Demo.run BOTH Demo.directory 0 req
     = Demo.run BOTH Demo.directory 1700000000000 req.
Proof.
  intros req user.
  assert (Hs : fst (Demo.run BOTH Demo.directory 1700000000000 req)
               = Success user) by (vm_compute; reflexivity).
  assert (He : (0 <= 1700000000000)%Z) by discriminate.
  split; [exact Hs | split; [exact He|]].
  exact (success_at_every_earlier_time Demo.cookieOf Demo.headerOf
           (Demo.definitions BOTH) Demo.directory Demo.tokens
           1700000000000 0 req user Hs He).
Defined.

(** Two payloads for alice that [validate] lets through: one live, one
    with an [exp] before the first date. *)
Lemma validate_reads_username_and_expiry_witness :
  let p := Demo.alicePayload in
  let q := Scenarios.ancientPayload in
  let now := 1699999999000%Z in
  username p = username q
  /\ (validDate (exp p * 1000) = true /\ (exp p * 1000 < now)%Z <->
      validDate (exp q * 1000) = true /\ (exp q * 1000 < now)%Z)
  /\ validate (Demo.definitions BOTH) Demo.directory now p
     = validate (Demo.definitions BOTH) Demo.directory now q.
Proof.
  intros p q now.
  assert (Hn : username p = username q) by reflexivity.
  assert (Hs : validDate (exp p * 1000) = true /\ (exp p * 1000 < now)%Z <->
               validDate (exp q * 1000) = true /\ (exp q * 1000 < now)%Z).
  { split.
    - intros [_ H]. vm_compute in H. discriminate H.
    - intros [H _]. vm_compute in H. discriminate H. }
  split; [exact Hn | split; [exact Hs|]].
  exact (validate_reads_username_and_expiry (Demo.definitions BOTH)
           Demo.directory now p q Hn Hs).
Defined.

(** The directory that emits the old record first. *)
Lemma last_emission_is_the_user_witness :
  let now := 1699999999000%Z in
  (now <= exp Demo.alicePayload * 1000)%Z
  /\ getAuthUserByUsername Scenarios.changingDirectory
       (username Demo.alicePayload)
     = Rx.mkObservable ([Some Scenarios.staleAlice] ++ [Some Demo.alice])
         Rx.Completed
  /\ validate (Demo.definitions BOTH) Scenarios.changingDirectory now
       Demo.alicePayload
     = (Rx.Resolved (hideRedactedFields ["password"] (Some Demo.alice)),
        [DirectoryLookup "alice"]).
Proof.
  intros now.
  assert (Hl : (now <= exp Demo.alicePayload * 1000)%Z)
    by (vm_compute; discriminate).
  assert (He : getAuthUserByUsername Scenarios.changingDirectory
                 (username Demo.alicePayload)
               = Rx.mkObservable
                   ([Some Scenarios.staleAlice] ++ [Some Demo.alice])
                   Rx.Completed) by reflexivity.
  split; [exact Hl | split; [exact He|]].
  exact (last_emission_is_the_user (Demo.definitions BOTH)
           Scenarios.changingDirectory now Demo.alicePayload
           [Some Scenarios.staleAlice] (Some Demo.alice) Hl He).
Defined.

(** The directory that emits alice and then fails. *)
Lemma lookup_error_rejects_witness :
  let req := Demo.withHeader "alice" in
  let now := 1699999999000%Z in
  fst (jwtFromRequest Demo.cookieOf Demo.headerOf (Demo.definitions BOTH) req)
  = Some "alice"
  /\ decodeRefreshToken Demo.tokens "alice" = Some Demo.alicePayload
  /\ (now <= exp Demo.alicePayload * 1000)%Z
  /\ Rx.ending (getAuthUserByUsername Scenarios.failingDirectory
                  (username Demo.alicePayload))
     = Rx.Errored "ECONNRESET"
  /\ fst (authenticate Demo.cookieOf Demo.headerOf (Demo.definitions BOTH)
            Scenarios.failingDirectory Demo.tokens now req)
     = Rejected "ECONNRESET".
Proof.
  intros req now.
  assert (Ht : fst (jwtFromRequest Demo.cookieOf Demo.headerOf
                      (Demo.definitions BOTH) req) = Some "alice")
    by (vm_compute; reflexivity).
  assert (Hd : decodeRefreshToken Demo.tokens "alice" = Some Demo.alicePayload)
    by (vm_compute; reflexivity).
  assert (Hl : (now <= exp Demo.alicePayload * 1000)%Z)
    by (vm_compute; discriminate).
  assert (He : Rx.ending (getAuthUserByUsername Scenarios.failingDirectory
                            (username Demo.alicePayload))
               = Rx.Errored "ECONNRESET") by reflexivity.
  split; [exact Ht | split; [exact Hd | split; [exact Hl | split; [exact He|]]]].
  exact (lookup_error_rejects Demo.cookieOf Demo.headerOf
           (Demo.definitions BOTH) Scenarios.failingDirectory Demo.tokens
           now req "alice" Demo.alicePayload "ECONNRESET" Ht Hd Hl He).
Defined.

(** X13. The outcome depends on the request only through the extracted
    token: two requests from which the same token is extracted end the
    same way, whichever channel carried it, and with the same decoder
    and directory calls after the channel reads. *)
Theorem same_token_same_outcome
    {IHttpRequest FieldValue : Type}
    (getRequestCookie getRequestHeader : IHttpRequest -> string -> option string)
    (authDefinitions : IAuthDefinitions)
    (authRepository : AuthRepository FieldValue) (jwtService : TokenService)
    (now : Z) (req1 req2 : IHttpRequest)
    (Hsame : fst (jwtFromRequest getRequestCookie getRequestHeader
                    authDefinitions req1)
             = fst (jwtFromRequest getRequestCookie getRequestHeader
                      authDefinitions req2)) :
  let run := authenticate getRequestCookie getRequestHeader authDefinitions
               authRepository jwtService now in
  let reads := fun req => snd (jwtFromRequest getRequestCookie
                                 getRequestHeader authDefinitions req) in
  fst (run req1) = fst (run req2)
  /\ exists calls, snd (run req1) = (reads req1 ++ calls)%list
                   /\ snd (run req2) = (reads req2 ++ calls)%list.
Proof.
  intros run reads. subst run reads. rewrite !authenticate_eq, <- Hsame.
  destruct (fst (jwtFromRequest getRequestCookie getRequestHeader
                   authDefinitions req1)) as [t|]; simpl.
  - destruct (decodeRefreshToken jwtService t) as [p|]; simpl.
    + split; [reflexivity|]. eexists. split; reflexivity.
    + split; [reflexivity|]. eexists. split; reflexivity.
  - split; [reflexivity|]. exists []. rewrite !app_nil_r. split; reflexivity.
Qed.

(** The same token once in the cookie and once in the header. *)
Lemma same_token_same_outcome_witness :
  fst (jwtFromRequest Demo.cookieOf Demo.headerOf (Demo.definitions BOTH)
         (Demo.withCookie "alice"))
  = fst (jwtFromRequest Demo.cookieOf Demo.headerOf (Demo.definitions BOTH)
           (Demo.withHeader "alice"))
  /\ fst (Demo.run BOTH Demo.directory 1699999999000 (Demo.withCookie "alice"))
     = fst (Demo.run BOTH Demo.directory 1699999999000
              (Demo.withHeader "alice")).
Proof.
  assert (Hs : fst (jwtFromRequest Demo.cookieOf Demo.headerOf
                      (Demo.definitions BOTH) (Demo.withCookie "alice"))
               = fst (jwtFromRequest Demo.cookieOf Demo.headerOf
                        (Demo.definitions BOTH) (Demo.withHeader "alice")))
    by (vm_compute; reflexivity).
  split; [exact Hs|].
  exact (proj1 (same_token_same_outcome Demo.cookieOf Demo.headerOf
                  (Demo.definitions BOTH) Demo.directory Demo.tokens
                  1699999999000 (Demo.withCookie "alice")
                  (Demo.withHeader "alice") Hs)).
Defined.
